(** * Clients service: role gate, client store and route handlers

    A shallow embedding of the clients part of the web service
    (src/database/models.py, src/schemas.py, src/repository/clients.py and
    src/routes/clients.py), and the properties of its operations.

    The Python modules become Rocq modules of the same name.  The handlers
    are written in a small reader/state/exception monad [M]: the state holds
    the table "clients" as the list of its rows, the unit of work of the ORM
    session, the counters of the rate limiter and the journal of the SQL
    statements sent to the store. *)

From Stdlib Require Import ZArith List String Bool Lia.
Import ListNotations.
Open Scope string_scope.
Open Scope list_scope.
Open Scope Z_scope.

(** ** Calendar dates ([datetime.date]) *)

Module datetime.

Record date := Date { year : Z; month : Z; day : Z }.

Definition date_eqb (a b : date) : bool :=
  (year a =? year b) && (month a =? month b) && (day a =? day b).

Definition _is_leap (y : Z) : bool :=
  (y mod 4 =? 0) && (negb (y mod 100 =? 0) || (y mod 400 =? 0)).

Definition _days_before_year (y : Z) : Z :=
  let y := y - 1 in y * 365 + y / 4 - y / 100 + y / 400.

(** [_DAYS_IN_MONTH] and [_DAYS_BEFORE_MONTH], indexed from 1. *)
Definition _DAYS_IN_MONTH (m : Z) : Z :=
  nth (Z.to_nat m) [-1; 31; 28; 31; 30; 31; 30; 31; 31; 30; 31; 30; 31] (-1).

Definition _DAYS_BEFORE_MONTH (m : Z) : Z :=
  nth (Z.to_nat m) [-1; 0; 31; 59; 90; 120; 151; 181; 212; 243; 273; 304; 334] (-1).

Definition _days_before_month (y m : Z) : Z :=
  _DAYS_BEFORE_MONTH m + (if (2 <? m) && _is_leap y then 1 else 0).

Definition _ymd2ord (y m d : Z) : Z :=
  _days_before_year y + _days_before_month y m + d.

Definition _DI400Y : Z := 146097.
Definition _DI100Y : Z := 36524.
Definition _DI4Y : Z := 1461.

Definition _ord2ymd (n : Z) : date :=
  let n := n - 1 in
  let n400 := n / _DI400Y in
  let n := n mod _DI400Y in
  let y := n400 * 400 + 1 in
  let n100 := n / _DI100Y in
  let n := n mod _DI100Y in
  let n4 := n / _DI4Y in
  let n := n mod _DI4Y in
  let n1 := n / 365 in
  let n := n mod 365 in
  let y := y + n100 * 100 + n4 * 4 + n1 in
  if (n1 =? 4) || (n100 =? 4) then Date (y - 1) 12 31
  else
    let leapyear := (n1 =? 3) && (negb (n4 =? 24) || (n100 =? 3)) in
    let m := Z.shiftr (n + 50) 5 in
    let preceding :=
      _DAYS_BEFORE_MONTH m + (if (2 <? m) && leapyear then 1 else 0) in
    if n <? preceding then
      let m := m - 1 in
      let preceding :=
        preceding
        - (_DAYS_IN_MONTH m + (if (m =? 2) && leapyear then 1 else 0)) in
      Date y m (n - preceding + 1)
    else Date y m (n - preceding + 1).

Definition toordinal (d : date) : Z := _ymd2ord (year d) (month d) (day d).

Definition _MAXORDINAL : Z := 3652059.

(** [d + timedelta(days=n)]; [None] stands for the OverflowError raised
    outside the years 1..9999. *)
Definition add_days (d : date) (n : Z) : option date :=
  let o := toordinal d + n in
  if (0 <? o) && (o <=? _MAXORDINAL) then Some (_ord2ymd o) else None.

End datetime.

(** ** src/database/models.py *)

Module models.

Inductive Role := admin | moderator | user.

Definition Role_eqb (a b : Role) : bool :=
  match a, b with
  | admin, admin | moderator, moderator | user, user => true
  | _, _ => false
  end.

(** A row of the table "clients"; the two DateTime columns are clock
    readings in milliseconds. *)
Record Client := {
  id : Z;
  first_name : string;
  last_name : string;
  email : string;
  mobile : string;
  birthday : datetime.date;
  add_info : string;
  created_at : Z;
  updated_at : Z
}.

(** A row of the table "users". *)
Record User := {
  user_id : Z;
  username : string;
  user_email : string;
  password : string;
  refresh_token : option string;
  avatar : option string;
  roles : Role;
  confirmed : bool
}.

End models.

(** ** src/schemas.py *)

Module schemas.

(** The validated request body of create and update. *)
Record ClientModel := {
  first_name : string;
  last_name : string;
  email : string;
  mobile : string;
  birthday : datetime.date;
  add_info : string
}.

End schemas.

(** ** Requests, exceptions and the handler monad *)

Record Request := {
  current_user : models.User;  (* resolved by auth_service.get_current_user *)
  client_host : string;        (* the key under which the limiter counts *)
  now : Z                      (* clock reading of the request, in ms *)
}.

Inductive Exception :=
| HTTPException (status_code : Z) (detail : string)
| RequestValidationError      (* a path parameter out of range: 422 *)
| OverflowError
| IntegrityError              (* a constraint of the store is violated *)
| InvalidRequestError.        (* refresh of an object that has no row *)

Inductive Outcome (A : Type) :=
| Return (a : A)
| Raise (e : Exception).
Arguments Return {A} a.
Arguments Raise {A} e.

(** SQL statements, as the journal records them. *)
Inductive Statement :=
| SELECT_all
| SELECT_by_id (client_id : Z)
| SELECT_by_email (e : string)
| SELECT_where                 (* a query with filter criteria *)
| INSERT (client_id : Z)
| UPDATE (client_id : Z)
| DELETE (client_id : Z)
| COMMIT
| ROLLBACK.

(** The store: the rows of "clients" in insertion order and the next value
    of the sequence that feeds the primary key. *)
Record Database := {
  clients : list models.Client;
  clients_id_seq : Z
}.

(** What the session has to write at the next flush. *)
Inductive Pending :=
| New (body : schemas.ClientModel)
| Dirty (loaded current : models.Client)
| Deleted (c : models.Client).

(** A counter of the rate limiter: calls seen in the window that ends at
    [expires_at]. *)
Record Counter := {
  key : string;
  calls : Z;
  expires_at : Z
}.

Record State := {
  database : Database;
  pending : list Pending;        (* unit of work of the session *)
  inserted : list Z;             (* primary keys given to added objects *)
  redis : list Counter;
  statements : list Statement    (* journal, oldest first *)
}.

Definition M (A : Type) : Type := Request -> State -> Outcome A * State.

Definition ret {A} (a : A) : M A := fun _ s => (Return a, s).

Definition raise {A} (e : Exception) : M A := fun _ s => (Raise e, s).

Definition bind {A B} (m : M A) (k : A -> M B) : M B :=
  fun r s =>
    match m r s with
    | (Return a, s') => k a r s'
    | (Raise e, s') => (Raise e, s')
    end.

Notation "x <- m ;; k" := (bind m (fun x => k))
  (at level 61, m at next level, right associativity).
Notation "m ;; k" := (bind m (fun _ => k))
  (at level 61, right associativity).

Definition request : M Request := fun r s => (Return r, s).

(** ** The ORM session ([sqlalchemy.orm.Session])

    The session of a request is made by the session factory of
    src/database/db.py with the defaults of the library: objects are expired
    on commit, and a flush writes the pending objects in the order they were
    registered.  No handler queries while something is pending. *)

Module orm.
Import models.

Definition with_statement (st : Statement) (s : State) : State :=
  {| database := database s; pending := pending s; inserted := inserted s;
     redis := redis s; statements := statements s ++ [st] |}.

Definition with_pending (ps : list Pending) (s : State) : State :=
  {| database := database s; pending := ps; inserted := inserted s;
     redis := redis s; statements := statements s |}.

Definition by_id (k : Z) (c : Client) : bool := id c =? k.

Definition by_email (e : string) (c : Client) : bool := String.eqb (email c) e.

(** [db.query(Client).all()] *)
Definition query_all : M (list Client) :=
  fun _ s => (Return (clients (database s)), with_statement SELECT_all s).

(** [db.query(Client).filter(...).all()], the criteria taken together *)
Definition query_filter_all (criteria : list (Client -> bool)) : M (list Client) :=
  fun _ s =>
    (Return (filter (fun c => forallb (fun p => p c) criteria)
               (clients (database s))),
     with_statement SELECT_where s).

(** [db.query(Client).filter_by(id=k).first()] *)
Definition query_filter_by_id_first (k : Z) : M (option Client) :=
  fun _ s =>
    (Return (find (by_id k) (clients (database s))),
     with_statement (SELECT_by_id k) s).

(** [db.query(Client).filter_by(email=e).first()] *)
Definition query_filter_by_email_first (e : string) : M (option Client) :=
  fun _ s =>
    (Return (find (by_email e) (clients (database s))),
     with_statement (SELECT_by_email e) s).

Definition is_new (p : Pending) : bool :=
  match p with New _ => true | _ => false end.

(** [db.add(client)] for the client built from [body.dict()]: the new object is known by its rank
    among the objects added to the session; the flush gives it its key. *)
Definition add (body : schemas.ClientModel) : M nat :=
  fun _ s =>
    (Return (List.length (inserted s) + List.length (filter is_new (pending s)))%nat,
     with_pending (pending s ++ [New body]) s).

(** Attribute assignment on a loaded object: the session keeps the loaded
    values next to the current ones. *)
Fixpoint touch (obj obj' : Client) (ps : list Pending) : list Pending :=
  match ps with
  | [] => [Dirty obj obj']
  | Dirty loaded current :: ps' =>
      if id current =? id obj then Dirty loaded obj' :: ps'
      else Dirty loaded current :: touch obj obj' ps'
  | p :: ps' => p :: touch obj obj' ps'
  end.

Definition setattr (f : Client -> Client) (obj : Client) : M Client :=
  fun _ s => (Return (f obj), with_pending (touch obj (f obj) (pending s)) s).

Definition first_name_set (v : string) (c : Client) : Client :=
  {| id := id c; first_name := v; last_name := last_name c; email := email c;
     mobile := mobile c; birthday := birthday c; add_info := add_info c;
     created_at := created_at c; updated_at := updated_at c |}.

Definition last_name_set (v : string) (c : Client) : Client :=
  {| id := id c; first_name := first_name c; last_name := v; email := email c;
     mobile := mobile c; birthday := birthday c; add_info := add_info c;
     created_at := created_at c; updated_at := updated_at c |}.

Definition email_set (v : string) (c : Client) : Client :=
  {| id := id c; first_name := first_name c; last_name := last_name c;
     email := v; mobile := mobile c; birthday := birthday c;
     add_info := add_info c;
     created_at := created_at c; updated_at := updated_at c |}.

Definition mobile_set (v : string) (c : Client) : Client :=
  {| id := id c; first_name := first_name c; last_name := last_name c;
     email := email c; mobile := v; birthday := birthday c;
     add_info := add_info c;
     created_at := created_at c; updated_at := updated_at c |}.

Definition birthday_set (v : datetime.date) (c : Client) : Client :=
  {| id := id c; first_name := first_name c; last_name := last_name c;
     email := email c; mobile := mobile c; birthday := v;
     add_info := add_info c;
     created_at := created_at c; updated_at := updated_at c |}.

Definition add_info_set (v : string) (c : Client) : Client :=
  {| id := id c; first_name := first_name c; last_name := last_name c;
     email := email c; mobile := mobile c; birthday := birthday c;
     add_info := v;
     created_at := created_at c; updated_at := updated_at c |}.

(** [db.delete(client)] *)
Definition delete (c : Client) : M unit :=
  fun _ s => (Return tt, with_pending (pending s ++ [Deleted c]) s).

(** INSERT: the key comes from the sequence (the engine is not named in
    the sources: this is the serial column that PostgreSQL makes of an
    Integer primary key; an engine that gives the largest key plus one
    would give the key of a deleted last row again, and no property below
    relies on a key never coming back), which moves on even when the
    row is refused; [id] is the primary key and [email] is unique
    (models.py: [primary_key=True], [unique=True]); both timestamps take
    their default, [func.now()]. *)
Definition insert_row (t : Z) (body : schemas.ClientModel) (d : Database)
  : Outcome Z * Database :=
  let k := clients_id_seq d in
  if existsb (by_id k) (clients d)
     || existsb (by_email (schemas.email body)) (clients d)
  then (Raise IntegrityError,
        {| clients := clients d; clients_id_seq := k + 1 |})
  else (Return k,
        {| clients :=
             clients d ++
             [ {| id := k;
                  first_name := schemas.first_name body;
                  last_name := schemas.last_name body;
                  email := schemas.email body;
                  mobile := schemas.mobile body;
                  birthday := schemas.birthday body;
                  add_info := schemas.add_info body;
                  created_at := t;
                  updated_at := t |} ];
           clients_id_seq := k + 1 |}).

(** An object is written by the flush only when one of its attributes
    differs from the value that was loaded. *)
Definition net_change (loaded current : Client) : bool :=
  negb (String.eqb (first_name current) (first_name loaded)
        && String.eqb (last_name current) (last_name loaded)
        && String.eqb (email current) (email loaded)
        && String.eqb (mobile current) (mobile loaded)
        && datetime.date_eqb (birthday current) (birthday loaded)
        && String.eqb (add_info current) (add_info loaded)).

Definition written (t : Z) (current row : Client) : Client :=
  {| id := id row;
     first_name := first_name current;
     last_name := last_name current;
     email := email current;
     mobile := mobile current;
     birthday := birthday current;
     add_info := add_info current;
     created_at := created_at row;
     updated_at := t |}.

(** UPDATE ... WHERE id = k: [updated_at] takes [onupdate=func.now()]; a
    changed email must not be the email of another row.  The row is kept
    at its place in the list; where an engine lists an updated row is its
    own affair, and no property below relies on it. *)
Definition update_row (t : Z) (loaded current : Client) (d : Database)
  : Outcome unit * Database :=
  let k := id loaded in
  if negb (String.eqb (email current) (email loaded))
     && existsb (fun r => negb (by_id k r) && by_email (email current) r)
          (clients d)
  then (Raise IntegrityError, d)
  else (Return tt,
        {| clients :=
             map (fun r => if by_id k r then written t current r else r)
               (clients d);
           clients_id_seq := clients_id_seq d |}).

(** DELETE ... WHERE id = k *)
Definition delete_row (c : Client) (d : Database) : Database :=
  {| clients := filter (fun r => negb (by_id (id c) r)) (clients d);
     clients_id_seq := clients_id_seq d |}.

Fixpoint flush (t : Z) (ps : list Pending) (d : Database) (keys : list Z)
  (j : list Statement)
  : Outcome unit * Database * list Z * list Statement :=
  match ps with
  | [] => (Return tt, d, keys, j)
  | New body :: ps' =>
      match insert_row t body d with
      | (Return k, d') => flush t ps' d' (keys ++ [k]) (j ++ [INSERT k])
      | (Raise e, d') => (Raise e, d', keys, j ++ [INSERT (clients_id_seq d)])
      end
  | Dirty loaded current :: ps' =>
      if net_change loaded current then
        match update_row t loaded current d with
        | (Return _, d') => flush t ps' d' keys (j ++ [UPDATE (id loaded)])
        | (Raise e, d') => (Raise e, d', keys, j ++ [UPDATE (id loaded)])
        end
      else flush t ps' d keys j
  | Deleted c :: ps' =>
      flush t ps' (delete_row c d) keys (j ++ [DELETE (id c)])
  end.

(** [db.commit()]: flush, then COMMIT; a refused statement rolls the
    transaction back and the exception goes to the caller. *)
Definition commit : M unit :=
  fun r s =>
    match flush (now r) (pending s) (database s) (inserted s) (statements s) with
    | (Return _, d, keys, j) =>
        (Return tt,
         {| database := d; pending := []; inserted := keys;
            redis := redis s; statements := j ++ [COMMIT] |})
    | (Raise e, d, _, j) =>
        (Raise e,
         {| database := {| clients := clients (database s);
                           clients_id_seq := clients_id_seq d |};
            pending := []; inserted := inserted s;
            redis := redis s; statements := j ++ [ROLLBACK] |})
    end.

(** Reading the row of key [k] back into an object. *)
Definition load (k : Z) : M Client :=
  fun _ s =>
    match find (by_id k) (clients (database s)) with
    | Some c => (Return c, with_statement (SELECT_by_id k) s)
    | None => (Raise InvalidRequestError, with_statement (SELECT_by_id k) s)
    end.

(** [db.refresh(client)] for an object added to this session. *)
Definition refresh (client : nat) : M Client :=
  fun r s =>
    match nth_error (inserted s) client with
    | Some k => load k r s
    | None => (Raise InvalidRequestError, s)
    end.

(** The attributes of an object that a commit has expired are read from
    its row again. *)
Definition expired (client : Client) : M Client := load (id client).

End orm.

(** ** The rate limiter ([fastapi_limiter.depends.RateLimiter])

    An external collaborator (spec, section 6: checkAndConsume): a counter
    per caller in a window that opens at the caller's first call and lasts
    [seconds]; the call that would bring the counter above [times] is
    refused. *)

Module fastapi_limiter.

Definition live (t : Z) (k : string) (c : Counter) : bool :=
  String.eqb (key c) k && (t <? expires_at c).

Definition current (t : Z) (k : string) (cs : list Counter) : Z :=
  match find (live t k) cs with
  | Some c => calls c
  | None => 0
  end.

Definition pttl (t : Z) (k : string) (cs : list Counter) : Z :=
  match find (live t k) cs with
  | Some c => expires_at c - t
  | None => -2
  end.

Definition incr (t : Z) (k : string) (cs : list Counter) : list Counter :=
  map (fun c =>
         if live t k c
         then {| key := key c; calls := calls c + 1; expires_at := expires_at c |}
         else c) cs.

Definition set_px (t : Z) (k : string) (v px : Z) (cs : list Counter)
  : list Counter :=
  {| key := k; calls := v; expires_at := t + px |}
    :: filter (fun c => negb (String.eqb (key c) k)) cs.

(** The script run in the counter store: 0 when the call is let through,
    the time left in the window otherwise. *)
Definition script (t : Z) (k : string) (limit expire : Z) (cs : list Counter)
  : Z * list Counter :=
  let n := current t k cs in
  if 0 <? n then
    if limit <? n + 1 then (pttl t k cs, cs)
    else (0, incr t k cs)
  else (0, set_px t k 1 expire cs).

Definition RateLimiter (times seconds : Z) : M unit :=
  fun r s =>
    let (pexpire, cs) :=
      script (now r) (client_host r) times (1000 * seconds) (redis s) in
    let s' := {| database := database s; pending := pending s;
                 inserted := inserted s; redis := cs;
                 statements := statements s |} in
    if pexpire =? 0 then (Return tt, s')
    else (Raise (HTTPException 429 "Too Many Requests"), s').

End fastapi_limiter.

(** ** src/services/roles.py *)

Module roles.
Import models.

(** Modelled from the spec: the access gate of src/services/roles.py, which
    is not among the sources, is built with the allowed-role set of an
    operation, fixed when the routes are declared (spec, section 4.1). *)
Record RoleAccess := { allowed_roles : list Role }.

(** Modelled from the spec: src/services/roles.py, the class RoleAccess
    that the routes instantiate, is not among the sources.  Spec, section
    4.1: [authorize(callerRole, allowedRoles)] permits when the caller's
    role is a member of the allowed set and denies otherwise, without side
    effects; the denial is the authorization failure, Forbidden (403). *)
Definition call (self : RoleAccess) : M unit :=
  r <- request ;;
  if existsb (Role_eqb (roles (current_user r))) (allowed_roles self)
  then ret tt
  else raise (HTTPException 403 "Forbidden").

End roles.

(** ** src/repository/clients.py *)

Module repository_clients.
Import models.

Definition get_clients : M (list Client) :=
  clients <- orm.query_all ;;
  ret clients.

Definition get_client_by_id (client_id : Z) : M (option Client) :=
  client <- orm.query_filter_by_id_first client_id ;;
  ret client.

Definition get_client_by_email (email : string) : M (option Client) :=
  client <- orm.query_filter_by_email_first email ;;
  ret client.

Definition create (body : schemas.ClientModel) : M Client :=
  client <- orm.add body ;;
  orm.commit ;;
  orm.refresh client.

(** The object that [update] returns was expired by the commit: what the
    caller reads from it is the row as it is then. *)
Definition update (client_id : Z) (body : schemas.ClientModel)
  : M (option Client) :=
  client <- get_client_by_id client_id ;;
  match client with
  | Some client =>
      client <- orm.setattr (orm.first_name_set (schemas.first_name body)) client ;;
      client <- orm.setattr (orm.last_name_set (schemas.last_name body)) client ;;
      client <- orm.setattr (orm.email_set (schemas.email body)) client ;;
      client <- orm.setattr (orm.mobile_set (schemas.mobile body)) client ;;
      client <- orm.setattr (orm.birthday_set (schemas.birthday body)) client ;;
      client <- orm.setattr (orm.add_info_set (schemas.add_info body)) client ;;
      orm.commit ;;
      client <- orm.expired client ;;
      ret (Some client)
  | None => ret None
  end.

(** The object that [remove] returns has left the session with the flush
    and keeps the values it was loaded with. *)
Definition remove (client_id : Z) : M (option Client) :=
  client <- get_client_by_id client_id ;;
  match client with
  | Some client =>
      orm.delete client ;;
      orm.commit ;;
      ret (Some client)
  | None => ret None
  end.

End repository_clients.

(** ** src/routes/clients.py *)

Module routes_clients.
Import models.

Definition allowed_operation_get : roles.RoleAccess :=
  {| roles.allowed_roles := [admin; moderator; user] |}.
Definition allowed_operation_create : roles.RoleAccess :=
  {| roles.allowed_roles := [admin; moderator; user] |}.
Definition allowed_operation_update : roles.RoleAccess :=
  {| roles.allowed_roles := [admin; moderator] |}.
Definition allowed_operation_remove : roles.RoleAccess :=
  {| roles.allowed_roles := [admin] |}.

(** The default values of the two query parameters of the birthday route
    are computed when the module is loaded: [date.today()] and
    [date.today() + timedelta(days=7)] are evaluated once, in the
    signature of the function. *)
Record Defaults := {
  start_date_default : datetime.date;
  end_date_default : datetime.date
}.

Definition import_module (today : datetime.date) : Outcome Defaults :=
  match datetime.add_days today 7 with
  | Some d => Return {| start_date_default := today; end_date_default := d |}
  | None => Raise OverflowError
  end.

(** [Query(default=d)]: the parameter of the request when it is given. *)
Definition Query (default : datetime.date) (given : option datetime.date)
  : datetime.date :=
  match given with
  | Some d => d
  | None => default
  end.

(** [Path(ge=1)] *)
Definition Path_ge (bound v : Z) : M Z :=
  if bound <=? v then ret v else raise RequestValidationError.

Definition get_clients : M (list Client) :=
  clients <- repository_clients.get_clients ;;
  ret clients.

Definition get_clients_by_birth_date (defaults : Defaults)
  (start_date end_date : option datetime.date) : M (list Client) :=
  let start_date := Query (start_date_default defaults) start_date in
  let end_date := Query (end_date_default defaults) end_date in
  clients <-
    orm.query_filter_all
      [ (fun c => datetime.day (birthday c) >=? datetime.day start_date);
        (fun c => datetime.month (birthday c) >=? datetime.month start_date);
        (fun c => datetime.day (birthday c) <=? datetime.day end_date);
        (fun c => datetime.month (birthday c) <=? datetime.month end_date) ] ;;
  ret clients.

Definition get_client (client_id : Z) : M Client :=
  client_id <- Path_ge 1 client_id ;;
  client <- repository_clients.get_client_by_id client_id ;;
  match client with
  | None => raise (HTTPException 404 "Not Found")
  | Some client => ret client
  end.

Definition create_client (body : schemas.ClientModel) : M Client :=
  client <- repository_clients.get_client_by_email (schemas.email body) ;;
  match client with
  | Some _ => raise (HTTPException 409 "Email is exists!")
  | None =>
      client <- repository_clients.create body ;;
      ret client
  end.

Definition update_client (body : schemas.ClientModel) (client_id : Z)
  : M Client :=
  client_id <- Path_ge 1 client_id ;;
  client <- repository_clients.update client_id body ;;
  match client with
  | None => raise (HTTPException 404 "Not Found")
  | Some client => ret client
  end.

Definition remove_client (client_id : Z) : M Client :=
  client_id <- Path_ge 1 client_id ;;
  client <- repository_clients.remove client_id ;;
  match client with
  | None => raise (HTTPException 404 "Not Found")
  | Some client => ret client
  end.

(** *** The routing table *)

Inductive Operation :=
| GET_clients
| GET_birthday (start_date end_date : option datetime.date)
| GET_client (client_id : Z)
| POST_client (body : schemas.ClientModel)
| PUT_client (client_id : Z) (body : schemas.ClientModel)
| DELETE_client (client_id : Z).

Inductive Dependency :=
| Depends_role (access : roles.RoleAccess)
| Depends_limiter (times seconds : Z).

(** [dependencies=[...]] of each route decorator. *)
Definition dependencies (op : Operation) : list Dependency :=
  match op with
  | GET_clients => [Depends_role allowed_operation_get; Depends_limiter 2 5]
  | GET_birthday _ _ => [Depends_role allowed_operation_get]
  | GET_client _ => [Depends_role allowed_operation_get]
  | POST_client _ => [Depends_role allowed_operation_create]
  | PUT_client _ _ => [Depends_role allowed_operation_update]
  | DELETE_client _ => [Depends_role allowed_operation_remove]
  end.

(** [status_code=...] of each route decorator, 200 when there is none. *)
Definition status_code (op : Operation) : Z :=
  match op with
  | POST_client _ => 201
  | DELETE_client _ => 204
  | _ => 200
  end.

Inductive Content :=
| Clients (l : list Client)
| OneClient (c : Client)
| Failure (e : Exception).

Definition solve (d : Dependency) : M unit :=
  match d with
  | Depends_role access => roles.call access
  | Depends_limiter times seconds => fastapi_limiter.RateLimiter times seconds
  end.

Fixpoint solve_dependencies (ds : list Dependency) : M unit :=
  match ds with
  | [] => ret tt
  | d :: ds' => solve d ;; solve_dependencies ds'
  end.

Definition endpoint (defaults : Defaults) (op : Operation) : M Content :=
  match op with
  | GET_clients => l <- get_clients ;; ret (Clients l)
  | GET_birthday start_date end_date =>
      l <- get_clients_by_birth_date defaults start_date end_date ;;
      ret (Clients l)
  | GET_client client_id => c <- get_client client_id ;; ret (OneClient c)
  | POST_client body => c <- create_client body ;; ret (OneClient c)
  | PUT_client client_id body =>
      c <- update_client body client_id ;; ret (OneClient c)
  | DELETE_client client_id =>
      c <- remove_client client_id ;; ret (OneClient c)
  end.

(** What outlives a request: the store, the counters of the limiter and
    the journal. *)
Record World := {
  store : Database;
  limiter : list Counter;
  journal : list Statement
}.

Record Response := {
  status : Z;
  content : Content
}.

Definition status_of (e : Exception) : Z :=
  match e with
  | HTTPException code _ => code
  | RequestValidationError => 422
  | _ => 500
  end.

(** Modelled from the spec: src/database/db.py, where [get_db] is, is not
    among the sources.  Each request gets a session of its own on the store
    (spec, section 5: no session outlives a request), with nothing
    pending. *)
Definition get_db (w : World) : State :=
  {| database := store w; pending := []; inserted := [];
     redis := limiter w; statements := journal w |}.

(** One request: a fresh session on the store, the dependencies of the
    route in their order, then the handler with its path parameters; an
    exception that is no HTTPException answers 500. *)
Definition serve (defaults : Defaults) (op : Operation) (r : Request)
  (w : World) : Response * World :=
  let (o, s') :=
    (solve_dependencies (dependencies op) ;; endpoint defaults op)
      r (get_db w) in
  (match o with
   | Return c => {| status := status_code op; content := c |}
   | Raise e => {| status := status_of e; content := Failure e |}
   end,
   {| store := database s'; limiter := redis s'; journal := statements s' |}).

End routes_clients.

(** ** Vocabulary of the properties *)

Import models routes_clients.

Definition role_of (r : Request) : Role := roles (current_user r).

(** The allowed-role set that the route of an operation depends on. *)
Definition allowed_set (op : Operation) : list Role :=
  flat_map (fun d => match d with
                     | Depends_role access => roles.allowed_roles access
                     | Depends_limiter _ _ => []
                     end) (dependencies op).

(** The limits (calls, seconds) that the route of an operation depends on. *)
Definition rate_limits (op : Operation) : list (Z * Z) :=
  flat_map (fun d => match d with
                     | Depends_role _ => []
                     | Depends_limiter times seconds => [(times, seconds)]
                     end) (dependencies op).

Definition failure (e : Exception) : Response :=
  {| status := status_of e; content := Failure e |}.

Definition Forbidden : Response := failure (HTTPException 403 "Forbidden").
Definition NotFound : Response := failure (HTTPException 404 "Not Found").
Definition Conflict : Response := failure (HTTPException 409 "Email is exists!").
Definition Throttled : Response := failure (HTTPException 429 "Too Many Requests").
Definition Invalid : Response := failure RequestValidationError.

(** The row that has the identifier [k], if any. *)
Definition record_of (k : Z) (d : Database) : option Client :=
  find (orm.by_id k) (clients d).

(** Some row has the email [e]. *)
Definition email_taken (e : string) (d : Database) : bool :=
  existsb (orm.by_email e) (clients d).

(** Some row other than the one of identifier [k] has the email [e]. *)
Definition email_taken_by_other (k : Z) (e : string) (d : Database) : bool :=
  existsb (fun c => negb (orm.by_id k c) && orm.by_email e c) (clients d).

(** The mutable fields of a row are those of a payload. *)
Definition holds (body : schemas.ClientModel) (c : Client) : Prop :=
  first_name c = schemas.first_name body
  /\ last_name c = schemas.last_name body
  /\ email c = schemas.email body
  /\ mobile c = schemas.mobile body
  /\ birthday c = schemas.birthday body
  /\ add_info c = schemas.add_info body.

Definition holdsb (body : schemas.ClientModel) (c : Client) : bool :=
  String.eqb (schemas.first_name body) (first_name c)
  && String.eqb (schemas.last_name body) (last_name c)
  && String.eqb (schemas.email body) (email c)
  && String.eqb (schemas.mobile body) (mobile c)
  && datetime.date_eqb (schemas.birthday body) (birthday c)
  && String.eqb (schemas.add_info body) (add_info c).

(** The literal day and month band of the birthday query. *)
Definition in_band (start_date end_date : datetime.date) (c : Client) : Prop :=
  datetime.day (birthday c) >= datetime.day start_date
  /\ datetime.month (birthday c) >= datetime.month start_date
  /\ datetime.day (birthday c) <= datetime.day end_date
  /\ datetime.month (birthday c) <= datetime.month end_date.

(** The invariant of the store: keys come from the sequence, and the
    primary key and the email are unique. *)
Definition db_ok (d : Database) : Prop :=
  1 <= clients_id_seq d
  /\ (forall c, In c (clients d) -> 1 <= id c < clients_id_seq d)
  /\ NoDup (map id (clients d))
  /\ NoDup (map email (clients d)).

(** The world after a request that only added [l] to the journal. *)
Definition journaled (l : list Statement) (w : World) : World :=
  {| store := store w; limiter := limiter w; journal := journal w ++ l |}.

Definition world (d : Database) (cs : list Counter) (j : list Statement) : World :=
  {| store := d; limiter := cs; journal := j |}.

Definition world_of (s : State) : World :=
  {| store := database s; limiter := redis s; journal := statements s |}.

(** A session with nothing pending. *)
Definition session (d : Database) (cs : list Counter) (j : list Statement) : State :=
  {| database := d; pending := []; inserted := []; redis := cs; statements := j |}.

(** An action run in a session, with what is left of the session when the
    request is over. *)
Definition run {A} (m : M A) (r : Request) (s : State) : Outcome A * World :=
  let (o, s') := m r s in (o, world_of s').

Definition answer (op : Operation) (o : Outcome Content) : Response :=
  match o with
  | Return c => {| status := status_code op; content := c |}
  | Raise e => failure e
  end.

(** A loaded object after the six assignments of [update]. *)
Definition assigned (body : schemas.ClientModel) (c : Client) : Client :=
  orm.add_info_set (schemas.add_info body)
    (orm.birthday_set (schemas.birthday body)
       (orm.mobile_set (schemas.mobile body)
          (orm.email_set (schemas.email body)
             (orm.last_name_set (schemas.last_name body)
                (orm.first_name_set (schemas.first_name body) c))))).

(** The store after the UPDATE of the row of key [k]. *)
Definition updated (t : Z) (k : Z) (body : schemas.ClientModel) (d : Database)
  : Database :=
  {| clients :=
       map (fun row =>
              if orm.by_id k row then orm.written t (assigned body row) row
              else row)
         (clients d);
     clients_id_seq := clients_id_seq d |}.

(** The row that an INSERT at time [t] makes of a payload. *)
Definition created (t : Z) (k : Z) (body : schemas.ClientModel) : Client :=
  {| id := k;
     first_name := schemas.first_name body;
     last_name := schemas.last_name body;
     email := schemas.email body;
     mobile := schemas.mobile body;
     birthday := schemas.birthday body;
     add_info := schemas.add_info body;
     created_at := t;
     updated_at := t |}.

Definition in_bandb (start_date end_date : datetime.date) (c : Client) : bool :=
  forallb (fun p : Client -> bool => p c)
    [ (fun c => datetime.day (birthday c) >=? datetime.day start_date);
      (fun c => datetime.month (birthday c) >=? datetime.month start_date);
      (fun c => datetime.day (birthday c) <=? datetime.day end_date);
      (fun c => datetime.month (birthday c) <=? datetime.month end_date) ].

(** The calendar date (UTC) of a clock reading in milliseconds. *)
Definition today (t : Z) : datetime.date :=
  datetime._ord2ymd (719163 + t / 86400000).

Definition empty_db : Database := {| clients := []; clients_id_seq := 1 |}.

(** *** Sample data *)

Definition caller (role : Role) : User :=
  {| user_id := 1; username := "operator"; user_email := "operator@example.com";
     password := "secret"; refresh_token := None; avatar := None;
     roles := role; confirmed := true |}.

Definition request_at (role : Role) (t : Z) : Request :=
  {| current_user := caller role; client_host := "203.0.113.7"; now := t |}.

Definition alice : schemas.ClientModel :=
  {| schemas.first_name := "Alice"; schemas.last_name := "Moroz";
     schemas.email := "alice@example.com"; schemas.mobile := "+380501112233";
     schemas.birthday := datetime.Date 1990 7 7; schemas.add_info := "" |}.

Definition bob : schemas.ClientModel :=
  {| schemas.first_name := "Bob"; schemas.last_name := "Koval";
     schemas.email := "bob@example.com"; schemas.mobile := "+380671112233";
     schemas.birthday := datetime.Date 1985 7 15; schemas.add_info := "vip" |}.

Definition carol : schemas.ClientModel :=
  {| schemas.first_name := "Carol"; schemas.last_name := "Bondar";
     schemas.email := "carol@example.com"; schemas.mobile := "+380931112233";
     schemas.birthday := datetime.Date 2001 1 5; schemas.add_info := "" |}.

(** Alice's payload with Bob's email. *)
Definition alice_as_bob : schemas.ClientModel :=
  {| schemas.first_name := "Alice"; schemas.last_name := "Moroz";
     schemas.email := "bob@example.com"; schemas.mobile := "+380501112233";
     schemas.birthday := datetime.Date 1990 7 7; schemas.add_info := "" |}.

Definition two_clients : World :=
  {| store := {| clients := [created 1000 1 alice; created 2000 2 bob];
                 clients_id_seq := 3 |};
     limiter := [];
     journal := [] |}.

(** The same store when the caller has made two list calls in the window
    that ends at 9000. *)
Definition two_clients_busy : World :=
  {| store := store two_clients;
     limiter := [ {| key := "203.0.113.7"; calls := 2; expires_at := 9000 |} ];
     journal := [] |}.

Definition defaults_2023_07_07 : Defaults :=
  {| start_date_default := datetime.Date 2023 7 7;
     end_date_default := datetime.Date 2023 7 14 |}.

(** 2023-07-08, 12:00 UTC. *)
Definition noon_2023_07_08 : Z := 1688817600000.

(** ** Sequences of requests and further vocabulary *)

(** Requests served one after the other, each on the world the one before
    left. *)
Fixpoint serve_all (defaults : Defaults) (calls : list (Operation * Request))
  (w : World) : World :=
  match calls with
  | [] => w
  | (op, r) :: rest => serve_all defaults rest (snd (serve defaults op r w))
  end.

(** By how many rows an operation that succeeds changes the table. *)
Definition delta (op : Operation) : Z :=
  match op with
  | POST_client _ => 1
  | DELETE_client _ => -1
  | _ => 0
  end.

(** No row was updated before it was created, nor after the time [t]. *)
Definition timely (t : Z) (d : Database) : Prop :=
  forall c, In c (clients d) -> created_at c <= updated_at c <= t.

Definition is_create (op : Operation) : bool :=
  match op with
  | POST_client _ => true
  | _ => false
  end.

(** None of the requests is a create. *)
Definition no_create (calls : list (Operation * Request)) : Prop :=
  forall call, In call calls -> is_create (fst call) = false.

(** The result of [get_client_by_email] in a fresh session. *)
Definition lookup_by_email (e : string) (r : Request) (w : World)
  : Outcome (option Client) :=
  fst (repository_clients.get_client_by_email e r (get_db w)).

(** ** migrations/versions/c36ed60e87ec_add_user.py *)

Module alembic.

Inductive SqlType :=
| Integer
| String (length : Z).

Record Column := {
  name : string;
  type_ : SqlType;
  nullable : bool
}.

Inductive Constraint :=
| PrimaryKeyConstraint (columns : list string)
| UniqueConstraint (columns : list string).

Record Table := {
  table_name : string;
  columns : list Column;
  constraints : list Constraint
}.

(** The tables of the database, in the order they were created. *)
Definition Schema := list Table.

Definition named (n : string) (t : Table) : bool := String.eqb (table_name t) n.

Definition has_table (n : string) (s : Schema) : bool := existsb (named n) s.

(** [op.create_table]: the database refuses ([None]) a name it has. *)
Definition create_table (t : Table) (s : Schema) : option Schema :=
  if has_table (table_name t) s then None else Some (s ++ [t]).

(** [op.drop_table]: the database refuses ([None]) a name it has not. *)
Definition drop_table (n : string) (s : Schema) : option Schema :=
  if has_table n s then Some (filter (fun t => negb (named n t)) s) else None.

End alembic.

Module c36ed60e87ec_add_user.
Import alembic.

Definition revision : string := "c36ed60e87ec".
Definition down_revision : string := "47d9f2e7bc63".

Definition users : Table :=
  {| table_name := "users";
     columns :=
       [ {| name := "id"; type_ := Integer; nullable := false |};
         {| name := "username"; type_ := String 50; nullable := true |};
         {| name := "email"; type_ := String 150; nullable := false |};
         {| name := "password"; type_ := String 255; nullable := false |};
         {| name := "refresh_token"; type_ := String 255; nullable := true |};
         {| name := "avatar"; type_ := String 255; nullable := true |} ];
     constraints := [PrimaryKeyConstraint ["id"]; UniqueConstraint ["email"]] |}.

Definition upgrade (s : Schema) : option Schema := create_table users s.

Definition downgrade (s : Schema) : option Schema := drop_table "users" s.

End c36ed60e87ec_add_user.

(** *** More sample data *)

(** A request of another caller, from another address. *)
Definition other_caller_at (t : Z) : Request :=
  {| current_user := caller user; client_host := "198.51.100.9"; now := t |}.

(** The world after two list calls of the sample caller, at 1000 and at
    2000, on the two sample clients. *)
Definition listed_twice : World :=
  snd (serve defaults_2023_07_07 GET_clients (request_at user 2000)
         (snd (serve defaults_2023_07_07 GET_clients (request_at user 1000)
                 two_clients))).

(** A schema that holds the table of the clients only. *)
Definition clients_only : alembic.Schema :=
  [ {| alembic.table_name := "clients"; alembic.columns := [];
       alembic.constraints := [] |} ].

(** ** Proof tools *)

Ltac finish :=
  unfold world, world_of, orm.with_statement; cbn;
  rewrite <- ?app_assoc; reflexivity.

Ltac branches :=
  repeat match goal with
         | |- context [if ?b then _ else _] => destruct b
         | |- context [match record_of ?k ?d with _ => _ end] =>
             destruct (record_of k d)
         end.

(** ** Calendar *)

Example add_days_within_month :
  datetime.add_days (datetime.Date 2023 7 7) 7 = Some (datetime.Date 2023 7 14).
Proof. reflexivity. Qed.

Example add_days_over_new_year :
  datetime.add_days (datetime.Date 2023 12 28) 7 = Some (datetime.Date 2024 1 4).
Proof. reflexivity. Qed.

Example add_days_over_leap_day :
  datetime.add_days (datetime.Date 2024 2 25) 7 = Some (datetime.Date 2024 3 3).
Proof. reflexivity. Qed.

Example add_days_out_of_range :
  datetime.add_days (datetime.Date 9999 12 25) 7 = None.
Proof. reflexivity. Qed.

Example today_at_noon : today noon_2023_07_08 = datetime.Date 2023 7 8.
Proof. reflexivity. Qed.

(** ** Lists *)

Section Lists.
Context {A : Type}.
Implicit Types (p : A -> bool) (l : list A).

Lemma find_none_existsb p l : find p l = None <-> existsb p l = false.
Proof.
  induction l as [|x l IH]; cbn; [tauto|].
  destruct (p x); cbn; [split; discriminate | exact IH].
Qed.

Lemma find_filter_negb p l : find p (filter (fun x => negb (p x)) l) = None.
Proof.
  induction l as [|x l IH]; cbn; [reflexivity|].
  destruct (p x) eqn:E; cbn; [exact IH | now rewrite E].
Qed.

Lemma find_app_fresh p l x :
  find p l = None -> find p (l ++ [x]) = if p x then Some x else None.
Proof.
  induction l as [|y l IH]; cbn; [reflexivity|].
  destruct (p y); [discriminate | exact IH].
Qed.

Lemma find_map_if p (g : A -> A) l :
  (forall x, p x = true -> p (g x) = true) ->
  find p (map (fun x => if p x then g x else x) l) = option_map g (find p l).
Proof.
  intros Hg. induction l as [|x l IH]; cbn; [reflexivity|].
  destruct (p x) eqn:E.
  - now rewrite (Hg _ E).
  - now rewrite E.
Qed.

Lemma NoDup_map_eq {B} (f : A -> B) l x y :
  NoDup (map f l) -> In x l -> In y l -> f x = f y -> x = y.
Proof.
  induction l as [|a l IH]; cbn; [tauto|].
  intros H Hx Hy E. inversion H as [|? ? Hn Hl]; subst.
  destruct Hx as [->|Hx], Hy as [->|Hy]; auto.
  - elim Hn. rewrite E. now apply in_map.
  - elim Hn. rewrite <- E. now apply in_map.
Qed.

Lemma NoDup_map_filter {B} (f : A -> B) p l :
  NoDup (map f l) -> NoDup (map f (filter p l)).
Proof.
  induction l as [|x l IH]; cbn; [auto|].
  intros H. inversion H as [|? ? Hn Hl]; subst.
  destruct (p x); cbn; [|auto].
  constructor; [|auto].
  rewrite in_map_iff in *. intros [y [E Hy]]. apply filter_In in Hy.
  apply Hn. exists y. tauto.
Qed.

End Lists.

(** ** The boolean tests of the model *)

Lemma Role_eqb_eq a b : Role_eqb a b = true <-> a = b.
Proof. destruct a, b; cbn; split; congruence. Qed.

Lemma existsb_Role a l : existsb (Role_eqb a) l = true <-> In a l.
Proof.
  rewrite existsb_exists. split.
  - intros [x [Hx E]]. apply Role_eqb_eq in E. now subst.
  - intros H. exists a. split; [exact H | now apply Role_eqb_eq].
Qed.

Lemma every_role_reads r : In (role_of r) [admin; moderator; user].
Proof. destruct (role_of r); cbn; tauto. Qed.

Lemma by_id_true k c : orm.by_id k c = true <-> id c = k.
Proof. unfold orm.by_id. apply Z.eqb_eq. Qed.

Lemma by_id_other k k' c :
  k' <> k -> orm.by_id k c = true -> orm.by_id k' c = false.
Proof.
  intros Hk E. apply by_id_true in E. apply not_true_is_false.
  rewrite by_id_true. congruence.
Qed.

Lemma by_email_true e c : orm.by_email e c = true <-> email c = e.
Proof. unfold orm.by_email. apply String.eqb_eq. Qed.

Lemma date_eqb_eq a b : datetime.date_eqb a b = true <-> a = b.
Proof.
  unfold datetime.date_eqb. destruct a, b; cbn.
  rewrite !andb_true_iff, !Z.eqb_eq. split.
  - intros [[-> ->] ->]. reflexivity.
  - intros E. injection E. auto.
Qed.

Lemma holdsb_true body c : holdsb body c = true <-> holds body c.
Proof.
  unfold holdsb, holds.
  rewrite !andb_true_iff, !String.eqb_eq, date_eqb_eq.
  intuition congruence.
Qed.

Lemma in_bandb_true s e c : in_bandb s e c = true <-> in_band s e c.
Proof.
  unfold in_bandb, in_band. cbn [forallb].
  rewrite !andb_true_iff, !Z.geb_le, !Z.leb_le. intuition lia.
Qed.

Lemma record_of_some k d c :
  record_of k d = Some c -> In c (clients d) /\ id c = k.
Proof.
  unfold record_of. intros H. apply find_some in H. now rewrite by_id_true in H.
Qed.

Lemma record_of_none k d :
  record_of k d = None <-> (forall c, In c (clients d) -> id c <> k).
Proof.
  unfold record_of. split.
  - intros H c Hc E. apply (find_none _ _ H) in Hc. apply by_id_true in E.
    congruence.
  - intros H. destruct (find _ _) eqn:E; [|reflexivity].
    apply find_some in E. destruct E as [Hin E]. apply by_id_true in E.
    now elim (H _ Hin).
Qed.

Lemma email_taken_true e d :
  email_taken e d = true <-> exists c, In c (clients d) /\ email c = e.
Proof.
  unfold email_taken. rewrite existsb_exists.
  split; intros [c [H E]]; exists c; (split; [exact H|]); now apply by_email_true.
Qed.

Lemma email_taken_by_other_true k e d :
  email_taken_by_other k e d = true
  <-> exists c, In c (clients d) /\ id c <> k /\ email c = e.
Proof.
  unfold email_taken_by_other. rewrite existsb_exists. split.
  - intros [c [H E]]. apply andb_true_iff in E. destruct E as [E1 E2].
    exists c. split; [exact H|]. split; [|now apply by_email_true].
    intros E. apply by_id_true in E. now rewrite E in E1.
  - intros [c [H [E1 E2]]]. exists c. split; [exact H|].
    apply andb_true_iff. split; [|now apply by_email_true].
    destruct (orm.by_id k c) eqn:E; [|reflexivity].
    apply by_id_true in E. contradiction.
Qed.

Lemma find_map_other k k' (g : Client -> Client) rows :
  k' <> k -> (forall row, id (g row) = id row) ->
  find (orm.by_id k')
    (map (fun row => if orm.by_id k row then g row else row) rows)
  = find (orm.by_id k') rows.
Proof.
  intros Hk Hg. induction rows as [|x rows IH]; cbn; [reflexivity|].
  destruct (orm.by_id k x) eqn:E.
  - rewrite (by_id_other k k' x Hk E).
    assert (E' : orm.by_id k (g x) = true)
      by (apply by_id_true; rewrite Hg; now apply by_id_true).
    now rewrite (by_id_other k k' (g x) Hk E').
  - now rewrite IH.
Qed.

Lemma find_filter_other k k' rows :
  k' <> k ->
  find (orm.by_id k') (filter (fun row => negb (orm.by_id k row)) rows)
  = find (orm.by_id k') rows.
Proof.
  intros Hk. induction rows as [|x rows IH]; cbn; [reflexivity|].
  destruct (orm.by_id k x) eqn:E; cbn.
  - now rewrite (by_id_other k k' x Hk E).
  - now rewrite IH.
Qed.

(** ** The gate and the shape of a request *)

Lemma call_run access r s :
  roles.call access r s =
  if existsb (Role_eqb (role_of r)) (roles.allowed_roles access)
  then (Return tt, s) else (Raise (HTTPException 403 "Forbidden"), s).
Proof.
  unfold roles.call, bind, request, role_of.
  now destruct (existsb _ _).
Qed.

Lemma World_eta w :
  {| store := store w; limiter := limiter w; journal := journal w |} = w.
Proof. now destruct w. Qed.

Lemma get_db_session w : get_db w = session (store w) (limiter w) (journal w).
Proof. reflexivity. Qed.

Lemma serve_denied defaults op r w :
  ~ In (role_of r) (allowed_set op) -> serve defaults op r w = (Forbidden, w).
Proof.
  intros H. rewrite <- existsb_Role in H. apply not_true_is_false in H.
  unfold serve.
  assert (E : solve_dependencies (dependencies op) r (get_db w)
              = (Raise (HTTPException 403 "Forbidden"), get_db w)).
  { destruct op; cbn [dependencies solve_dependencies solve];
      unfold bind; rewrite call_run; cbn in H |- *; now rewrite H. }
  unfold bind at 1. rewrite E. cbn. now rewrite World_eta.
Qed.

Lemma serve_run defaults op r w :
  op <> GET_clients -> In (role_of r) (allowed_set op) ->
  serve defaults op r w =
  let (o, w') := run (endpoint defaults op) r (get_db w) in (answer op o, w').
Proof.
  intros Hop H. rewrite <- existsb_Role in H.
  unfold serve, run.
  assert (E : solve_dependencies (dependencies op) r (get_db w)
              = (Return tt, get_db w)).
  { destruct op; try congruence; cbn [dependencies solve_dependencies solve];
      unfold bind; rewrite call_run; cbn in H |- *; now rewrite H. }
  unfold bind at 1. rewrite E.
  destruct (endpoint defaults op r (get_db w)) as [[c|e] s']; reflexivity.
Qed.

Lemma serve_get_clients defaults r w :
  serve defaults GET_clients r w =
  let (pexpire, cs) :=
    fastapi_limiter.script (now r) (client_host r) 2 (1000 * 5) (limiter w) in
  if pexpire =? 0 then
    ({| status := 200; content := Clients (clients (store w)) |},
     world (store w) cs (journal w ++ [SELECT_all]))
  else (Throttled, world (store w) cs (journal w)).
Proof.
  unfold serve. cbn [dependencies solve_dependencies solve].
  unfold bind at 1 2. rewrite call_run.
  pose proof (every_role_reads r) as H. rewrite <- existsb_Role in H.
  cbn [roles.allowed_roles allowed_operation_get]. rewrite H.
  unfold bind at 1. unfold fastapi_limiter.RateLimiter. cbn [get_db redis].
  destruct (fastapi_limiter.script _ _ _ _ _) as [pexpire cs].
  destruct (pexpire =? 0); reflexivity.
Qed.

(** ** What each handler does in a fresh session *)

Lemma touch_nil obj new : orm.touch obj new [] = [Dirty obj new].
Proof. reflexivity. Qed.

Lemma touch_current loaded current new ps :
  orm.touch current new (Dirty loaded current :: ps) = Dirty loaded new :: ps.
Proof. cbn. now rewrite Z.eqb_refl. Qed.

Lemma net_change_assigned body c :
  orm.net_change c (assigned body c) = negb (holdsb body c).
Proof. reflexivity. Qed.

Lemma holds_written t body c : holds body (orm.written t (assigned body c) c).
Proof. repeat split. Qed.

Lemma run_get_clients defaults r d cs j :
  run (endpoint defaults GET_clients) r (session d cs j) =
  (Return (Clients (clients d)), world d cs (j ++ [SELECT_all])).
Proof. reflexivity. Qed.

Lemma run_get_clients_by_birth_date defaults start_date end_date r d cs j :
  run (endpoint defaults (GET_birthday start_date end_date)) r (session d cs j) =
  (Return (Clients (filter (in_bandb (Query (start_date_default defaults) start_date)
                              (Query (end_date_default defaults) end_date))
                      (clients d))),
   world d cs (j ++ [SELECT_where])).
Proof. reflexivity. Qed.

Lemma run_get_client defaults k r d cs j :
  run (endpoint defaults (GET_client k)) r (session d cs j) =
  if 1 <=? k then
    match record_of k d with
    | Some c => (Return (OneClient c), world d cs (j ++ [SELECT_by_id k]))
    | None => (Raise (HTTPException 404 "Not Found"),
               world d cs (j ++ [SELECT_by_id k]))
    end
  else (Raise RequestValidationError, world d cs j).
Proof.
  unfold run, endpoint, get_client, Path_ge, bind, record_of.
  destruct (1 <=? k); [|reflexivity].
  cbn. destruct (find _ _); reflexivity.
Qed.

Lemma run_remove_client defaults k r d cs j :
  run (endpoint defaults (DELETE_client k)) r (session d cs j) =
  if 1 <=? k then
    match record_of k d with
    | Some c =>
        (Return (OneClient c),
         world (orm.delete_row c d) cs
           (j ++ [SELECT_by_id k; DELETE (id c); COMMIT]))
    | None => (Raise (HTTPException 404 "Not Found"),
               world d cs (j ++ [SELECT_by_id k]))
    end
  else (Raise RequestValidationError, world d cs j).
Proof.
  unfold run, endpoint, remove_client, Path_ge, bind, record_of.
  destruct (1 <=? k); [|reflexivity].
  cbn. destruct (find _ _); [|reflexivity].
  cbn. unfold world. now rewrite <- !app_assoc.
Qed.

Lemma run_update_client defaults k body r d cs j :
  run (endpoint defaults (PUT_client k body)) r (session d cs j) =
  if 1 <=? k then
    match record_of k d with
    | Some c =>
        if holdsb body c then
          (Return (OneClient c),
           world d cs (j ++ [SELECT_by_id k; COMMIT; SELECT_by_id k]))
        else if negb (String.eqb (schemas.email body) (email c))
                && email_taken_by_other k (schemas.email body) d then
          (Raise IntegrityError,
           world d cs (j ++ [SELECT_by_id k; UPDATE k; ROLLBACK]))
        else
          (Return (OneClient (orm.written (now r) (assigned body c) c)),
           world (updated (now r) k body d) cs
             (j ++ [SELECT_by_id k; UPDATE k; COMMIT; SELECT_by_id k]))
    | None => (Raise (HTTPException 404 "Not Found"),
               world d cs (j ++ [SELECT_by_id k]))
    end
  else (Raise RequestValidationError, world d cs j).
Proof.
  unfold run, endpoint, update_client, Path_ge, bind at 1 2.
  destruct (1 <=? k); [|reflexivity].
  cbn [ret].
  unfold repository_clients.update, repository_clients.get_client_by_id.
  unfold bind, orm.query_filter_by_id_first, ret, orm.setattr.
  unfold session, orm.with_statement, orm.with_pending.
  cbn [database pending inserted redis statements].
  destruct (record_of k d) as [c|] eqn:Hf; unfold record_of in Hf; rewrite Hf;
    [|reflexivity].
  destruct (record_of_some _ _ _ Hf) as [Hin Hid].
  destruct d as [rows seq]. cbn [clients] in *.
  cbn [database pending inserted redis statements].
  rewrite touch_nil, !touch_current.
  fold (assigned body c).
  unfold orm.commit.
  cbn [database pending inserted redis statements orm.flush].
  rewrite net_change_assigned.
  destruct (holdsb body c) eqn:Hh; cbn [negb].
  - unfold orm.expired, orm.load.
    cbn [database assigned id orm.add_info_set orm.birthday_set orm.mobile_set
         orm.email_set orm.last_name_set orm.first_name_set].
    cbn [clients]. rewrite Hid, Hf. finish.
  - unfold orm.update_row.
    cbn [email assigned orm.add_info_set orm.birthday_set orm.mobile_set
         orm.email_set orm.last_name_set orm.first_name_set].
    rewrite Hid. unfold email_taken_by_other. cbn [clients].
    destruct (negb _ && _).
    + finish.
    + unfold orm.expired, orm.load.
      cbn [database clients assigned id orm.add_info_set orm.birthday_set
           orm.mobile_set orm.email_set orm.last_name_set orm.first_name_set].
      rewrite Hid. rewrite find_map_if by (intros x Hx; exact Hx).
      rewrite Hf. unfold updated. finish.
Qed.

Lemma run_create body r d cs j :
  run (repository_clients.create body) r (session d cs j) =
  let k := clients_id_seq d in
  if existsb (orm.by_id k) (clients d) || email_taken (schemas.email body) d then
    (Raise IntegrityError,
     world {| clients := clients d; clients_id_seq := k + 1 |} cs
       (j ++ [INSERT k; ROLLBACK]))
  else
    (Return (created (now r) k body),
     world {| clients := clients d ++ [created (now r) k body];
              clients_id_seq := k + 1 |} cs
       (j ++ [INSERT k; COMMIT; SELECT_by_id k])).
Proof.
  destruct d as [rows seq].
  unfold run, repository_clients.create, bind, orm.add, orm.commit,
    orm.with_pending, session.
  cbn [database pending inserted redis statements app filter List.length
       orm.is_new orm.flush Nat.add].
  unfold orm.insert_row, email_taken. cbn [clients clients_id_seq].
  destruct (existsb (orm.by_id seq) rows) eqn:Hk; [finish|]. cbn [orb].
  destruct (existsb (orm.by_email _) rows); [finish|].
  unfold orm.refresh. cbn [inserted nth_error app].
  unfold orm.load. cbn [database clients].
  apply find_none_existsb in Hk. rewrite (find_app_fresh _ _ _ Hk).
  unfold orm.by_id at 1. cbn [id]. rewrite Z.eqb_refl. finish.
Qed.

Lemma run_create_client defaults body r d cs j :
  run (endpoint defaults (POST_client body)) r (session d cs j) =
  let e := schemas.email body in
  let k := clients_id_seq d in
  if email_taken e d then
    (Raise (HTTPException 409 "Email is exists!"),
     world d cs (j ++ [SELECT_by_email e]))
  else if existsb (orm.by_id k) (clients d) then
    (Raise IntegrityError,
     world {| clients := clients d; clients_id_seq := k + 1 |} cs
       (j ++ [SELECT_by_email e; INSERT k; ROLLBACK]))
  else
    (Return (OneClient (created (now r) k body)),
     world {| clients := clients d ++ [created (now r) k body];
              clients_id_seq := k + 1 |} cs
       (j ++ [SELECT_by_email e; INSERT k; COMMIT; SELECT_by_id k])).
Proof.
  destruct d as [rows seq].
  unfold run, endpoint, create_client, repository_clients.get_client_by_email.
  unfold bind at 1 2 3. unfold orm.query_filter_by_email_first, ret at 1, session.
  cbn [database pending inserted redis statements].
  unfold email_taken. cbn [database clients clients_id_seq].
  destruct (existsb (orm.by_email (schemas.email body)) rows) eqn:Ht.
  - destruct (find _ rows) eqn:Hf; [finish|].
    apply find_none_existsb in Hf. congruence.
  - apply find_none_existsb in Ht. rewrite Ht.
    unfold repository_clients.create, bind, orm.add, orm.commit,
      orm.with_pending, orm.with_statement.
    cbn [database pending inserted redis statements app filter List.length
         orm.is_new orm.flush Nat.add].
    unfold orm.insert_row. cbn [clients clients_id_seq].
    apply find_none_existsb in Ht. rewrite Ht, orb_false_r.
    destruct (existsb (orm.by_id seq) rows) eqn:Hk; [finish|].
    unfold orm.refresh. cbn [inserted nth_error app].
    unfold orm.load. cbn [database clients].
    apply find_none_existsb in Hk. rewrite (find_app_fresh _ _ _ Hk).
    unfold orm.by_id at 1. cbn [id]. rewrite Z.eqb_refl. finish.
Qed.

(** ** The limiter *)

Lemma script_over_limit t k limit expire cs :
  0 < limit -> limit <= fastapi_limiter.current t k cs ->
  exists pexpire,
    fastapi_limiter.script t k limit expire cs = (pexpire, cs) /\ 0 < pexpire.
Proof.
  intros Hl H. unfold fastapi_limiter.script.
  assert (E1 : (0 <? fastapi_limiter.current t k cs) = true)
    by (apply Z.ltb_lt; lia).
  assert (E2 : (limit <? fastapi_limiter.current t k cs + 1) = true)
    by (apply Z.ltb_lt; lia).
  rewrite E1, E2. eexists. split; [reflexivity|].
  unfold fastapi_limiter.current, fastapi_limiter.pttl in *.
  destruct (find _ cs) as [c|] eqn:Hf; [|lia].
  apply find_some in Hf. destruct Hf as [_ Hf]. unfold fastapi_limiter.live in Hf.
  apply andb_true_iff in Hf. destruct Hf as [_ Hf]. apply Z.ltb_lt in Hf. lia.
Qed.

Lemma list_call_over_limit defaults r w :
  2 <= fastapi_limiter.current (now r) (client_host r) (limiter w) ->
  serve defaults GET_clients r w = (Throttled, w).
Proof.
  intros H. rewrite serve_get_clients.
  destruct (script_over_limit (now r) (client_host r) 2 (1000 * 5) (limiter w))
    as [pexpire [E Hp]]; [lia|exact H|].
  rewrite E. destruct (Z.eqb_spec pexpire 0); [lia|].
  unfold world. now rewrite World_eta.
Qed.

(** Two list calls of a caller pass in a window of five seconds, the third
    is refused and reaches neither the store nor the counters. *)
Lemma third_list_call_refused defaults r1 r2 r3 w :
  client_host r2 = client_host r1 -> client_host r3 = client_host r1 ->
  now r1 <= now r2 <= now r3 -> now r3 < now r1 + 5000 ->
  fastapi_limiter.current (now r1) (client_host r1) (limiter w) = 0 ->
  let w1 := snd (serve defaults GET_clients r1 w) in
  let w2 := snd (serve defaults GET_clients r2 w1) in
  status (fst (serve defaults GET_clients r1 w)) = 200
  /\ status (fst (serve defaults GET_clients r2 w1)) = 200
  /\ serve defaults GET_clients r3 w2 = (Throttled, w2).
Proof.
  intros H2 H3 Ht Hw H0 w1 w2.
  assert (E1 : serve defaults GET_clients r1 w =
               ({| status := 200; content := Clients (clients (store w)) |},
                world (store w)
                  (fastapi_limiter.set_px (now r1) (client_host r1) 1 5000
                     (limiter w))
                  (journal w ++ [SELECT_all]))).
  { rewrite serve_get_clients. unfold fastapi_limiter.script. rewrite H0.
    reflexivity. }
  assert (L1 : forall t, now r1 <= t < now r1 + 5000 ->
               find (fastapi_limiter.live t (client_host r1)) (limiter w1)
               = Some {| key := client_host r1; calls := 1;
                         expires_at := now r1 + 5000 |}).
  { intros t Htt. subst w1. rewrite E1.
    cbn [snd world limiter fastapi_limiter.set_px find].
    unfold fastapi_limiter.live at 1. cbn [key expires_at].
    rewrite String.eqb_refl.
    destruct (Z.ltb_spec t (now r1 + 5000)); [reflexivity|lia]. }
  assert (E2 : serve defaults GET_clients r2 w1 =
               ({| status := 200; content := Clients (clients (store w1)) |},
                world (store w1)
                  (fastapi_limiter.incr (now r2) (client_host r1) (limiter w1))
                  (journal w1 ++ [SELECT_all]))).
  { rewrite serve_get_clients, H2.
    unfold fastapi_limiter.script, fastapi_limiter.current.
    rewrite L1 by lia. reflexivity. }
  split; [now rewrite E1|]. split; [now rewrite E2|].
  apply list_call_over_limit.
  rewrite H3. subst w2. rewrite E2. cbn [snd world limiter].
  unfold fastapi_limiter.current.
  assert (L2 : find (fastapi_limiter.live (now r3) (client_host r1))
                 (fastapi_limiter.incr (now r2) (client_host r1) (limiter w1))
               = Some {| key := client_host r1; calls := 2;
                         expires_at := now r1 + 5000 |}).
  { subst w1. rewrite E1.
    cbn [snd world limiter fastapi_limiter.set_px fastapi_limiter.incr map].
    unfold fastapi_limiter.live at 2. cbn [key expires_at calls].
    rewrite String.eqb_refl.
    destruct (Z.ltb_spec (now r2) (now r1 + 5000)); [|lia].
    cbn [andb find]. unfold fastapi_limiter.live at 1. cbn [key expires_at calls].
    rewrite String.eqb_refl.
    destruct (Z.ltb_spec (now r3) (now r1 + 5000)); [|lia].
    reflexivity. }
  rewrite L2. cbn. lia.
Qed.

Lemma script_under_limit t k limit expire cs :
  fastapi_limiter.current t k cs < limit ->
  fst (fastapi_limiter.script t k limit expire cs) = 0.
Proof.
  intros H. unfold fastapi_limiter.script.
  destruct (0 <? fastapi_limiter.current t k cs); [|reflexivity].
  destruct (Z.ltb_spec limit (fastapi_limiter.current t k cs + 1)); [lia|reflexivity].
Qed.

(** After the window the counter starts again. *)
Lemma current_after_window t k cs :
  (forall c, In c cs -> key c = k -> expires_at c <= t) ->
  fastapi_limiter.current t k cs = 0.
Proof.
  intros H. unfold fastapi_limiter.current.
  destruct (find _ cs) as [c|] eqn:E; [|reflexivity].
  apply find_some in E. destruct E as [Hin E]. unfold fastapi_limiter.live in E.
  apply andb_true_iff in E. destruct E as [Ek Et].
  apply String.eqb_eq in Ek. apply Z.ltb_lt in Et. specialize (H c Hin Ek). lia.
Qed.

Lemma In_incr t k cs c :
  In c (fastapi_limiter.incr t k cs) ->
  exists c0, In c0 cs /\ key c = key c0 /\ expires_at c = expires_at c0.
Proof.
  unfold fastapi_limiter.incr. rewrite in_map_iff. intros [c0 [E H]].
  exists c0. split; [exact H|].
  destruct (fastapi_limiter.live t k c0); subst c; auto.
Qed.

Lemma In_set_px t k v px cs c :
  In c (fastapi_limiter.set_px t k v px cs) -> key c = k -> expires_at c = t + px.
Proof.
  unfold fastapi_limiter.set_px. intros [<-|H] Hk; [reflexivity|].
  apply filter_In in H. destruct H as [_ H]. rewrite Hk, String.eqb_refl in H.
  discriminate H.
Qed.

Lemma current_set_px t1 t k v px cs :
  t < t1 + px ->
  fastapi_limiter.current t k (fastapi_limiter.set_px t1 k v px cs) = v.
Proof.
  intros H. unfold fastapi_limiter.current, fastapi_limiter.set_px. cbn [find].
  unfold fastapi_limiter.live at 1. cbn [key expires_at].
  rewrite String.eqb_refl. destruct (Z.ltb_spec t (t1 + px)); [reflexivity|lia].
Qed.

Lemma find_filter_implied {A} (p q : A -> bool) l :
  (forall x, p x = true -> q x = true) -> find p (filter q l) = find p l.
Proof.
  intros H. induction l as [|x l IH]; cbn; [reflexivity|].
  destruct (p x) eqn:E.
  - rewrite (H x E). cbn. now rewrite E.
  - destruct (q x); cbn; [now rewrite E|exact IH].
Qed.

Lemma find_map_same {A} (p : A -> bool) (f : A -> A) l :
  (forall x, p (f x) = p x) -> (forall x, p x = true -> f x = x) ->
  find p (map f l) = find p l.
Proof.
  intros Hp Hf. induction l as [|x l IH]; cbn; [reflexivity|].
  rewrite Hp. destruct (p x) eqn:E; [now rewrite (Hf x E)|exact IH].
Qed.

Lemma live_other t t' k k' c :
  k' <> k -> fastapi_limiter.live t' k' c = true -> fastapi_limiter.live t k c = false.
Proof.
  unfold fastapi_limiter.live. intros Hk H. apply andb_true_iff in H.
  destruct H as [H _]. apply String.eqb_eq in H.
  destruct (String.eqb_spec (key c) k); [congruence|reflexivity].
Qed.

Lemma current_other_set_px t t1 k k' v px cs :
  k' <> k ->
  fastapi_limiter.current t k' (fastapi_limiter.set_px t1 k v px cs)
  = fastapi_limiter.current t k' cs.
Proof.
  intros Hk. unfold fastapi_limiter.current, fastapi_limiter.set_px. cbn [find].
  unfold fastapi_limiter.live at 1. cbn [key].
  destruct (String.eqb_spec k k'); [congruence|]. cbn [andb].
  rewrite find_filter_implied; [reflexivity|].
  intros c Hc. unfold fastapi_limiter.live in Hc. apply andb_true_iff in Hc.
  destruct Hc as [Hc _]. apply String.eqb_eq in Hc.
  destruct (String.eqb_spec (key c) k); [congruence|reflexivity].
Qed.

Lemma current_other_incr t t2 k k' cs :
  k' <> k ->
  fastapi_limiter.current t k' (fastapi_limiter.incr t2 k cs)
  = fastapi_limiter.current t k' cs.
Proof.
  intros Hk. unfold fastapi_limiter.current, fastapi_limiter.incr.
  rewrite find_map_same; [reflexivity| |].
  - intros c. now destruct (fastapi_limiter.live t2 k c).
  - intros c Hc. now rewrite (live_other t2 t k k' c Hk Hc).
Qed.

Lemma list_call_under_limit defaults r w :
  fastapi_limiter.current (now r) (client_host r) (limiter w) < 2 ->
  fst (serve defaults GET_clients r w)
  = {| status := 200; content := Clients (clients (store w)) |}.
Proof.
  intros H. rewrite serve_get_clients.
  pose proof (script_under_limit (now r) (client_host r) 2 (1000 * 5) (limiter w) H) as E.
  destruct (fastapi_limiter.script _ _ _ _ _) as [pexpire cs]. cbn in E. subst pexpire.
  reflexivity.
Qed.

(** The world after the first two list calls of a caller with no running
    window. *)
Lemma after_two_list_calls defaults r1 r2 w :
  client_host r2 = client_host r1 ->
  now r1 <= now r2 -> now r2 < now r1 + 5000 ->
  fastapi_limiter.current (now r1) (client_host r1) (limiter w) = 0 ->
  let w1 := snd (serve defaults GET_clients r1 w) in
  let w2 := snd (serve defaults GET_clients r2 w1) in
  store w1 = store w
  /\ store w2 = store w
  /\ limiter w2
     = fastapi_limiter.incr (now r2) (client_host r1)
         (fastapi_limiter.set_px (now r1) (client_host r1) 1 5000 (limiter w)).
Proof.
  intros H2 Ht Hw H0 w1 w2.
  assert (S1 : w1 = world (store w)
                 (fastapi_limiter.set_px (now r1) (client_host r1) 1 5000 (limiter w))
                 (journal w ++ [SELECT_all])).
  { subst w1. rewrite serve_get_clients. unfold fastapi_limiter.script. rewrite H0.
    reflexivity. }
  split; [now rewrite S1|].
  subst w2. rewrite serve_get_clients, H2. unfold fastapi_limiter.script.
  rewrite S1. cbn [world limiter store].
  rewrite current_set_px by lia. cbn. auto.
Qed.

Lemma list_call_after_window defaults r1 r2 r4 w :
  client_host r2 = client_host r1 -> client_host r4 = client_host r1 ->
  now r1 <= now r2 -> now r2 < now r1 + 5000 -> now r1 + 5000 <= now r4 ->
  fastapi_limiter.current (now r1) (client_host r1) (limiter w) = 0 ->
  let w1 := snd (serve defaults GET_clients r1 w) in
  let w2 := snd (serve defaults GET_clients r2 w1) in
  fst (serve defaults GET_clients r4 w2)
  = {| status := 200; content := Clients (clients (store w)) |}.
Proof.
  intros H2 H4 Ht Hw Hlate H0 w1 w2.
  pose proof (after_two_list_calls defaults r1 r2 w H2 Ht Hw H0) as S.
  cbv zeta in S. fold w1 in S. fold w2 in S. destruct S as (_ & Hst & Hl).
  rewrite <- Hst. apply list_call_under_limit.
  rewrite current_after_window; [lia|].
  intros c Hc Hk. rewrite H4 in Hk. rewrite Hl in Hc.
  apply In_incr in Hc. destruct Hc as [c0 [Hc0 [Ek Ee]]].
  rewrite Ee, (In_set_px _ _ _ _ _ _ Hc0); [lia|congruence].
Qed.

Lemma list_call_of_other_caller defaults r1 r2 r5 w :
  client_host r2 = client_host r1 -> client_host r5 <> client_host r1 ->
  now r1 <= now r2 -> now r2 < now r1 + 5000 ->
  fastapi_limiter.current (now r1) (client_host r1) (limiter w) = 0 ->
  fastapi_limiter.current (now r5) (client_host r5) (limiter w) < 2 ->
  let w1 := snd (serve defaults GET_clients r1 w) in
  let w2 := snd (serve defaults GET_clients r2 w1) in
  fst (serve defaults GET_clients r5 w2)
  = {| status := 200; content := Clients (clients (store w)) |}.
Proof.
  intros H2 H5 Ht Hw H0 Hother w1 w2.
  pose proof (after_two_list_calls defaults r1 r2 w H2 Ht Hw H0) as S.
  cbv zeta in S. fold w1 in S. fold w2 in S. destruct S as (_ & Hst & Hl).
  rewrite <- Hst. apply list_call_under_limit.
  now rewrite Hl, current_other_incr, current_other_set_px.
Qed.

Lemma first_two_list_calls defaults r1 r2 w :
  client_host r2 = client_host r1 ->
  now r1 <= now r2 -> now r2 < now r1 + 5000 ->
  fastapi_limiter.current (now r1) (client_host r1) (limiter w) = 0 ->
  let w1 := snd (serve defaults GET_clients r1 w) in
  fst (serve defaults GET_clients r1 w)
  = {| status := 200; content := Clients (clients (store w)) |}
  /\ fst (serve defaults GET_clients r2 w1)
     = {| status := 200; content := Clients (clients (store w)) |}.
Proof.
  intros H2 Ht Hw H0 w1.
  split; [apply list_call_under_limit; lia|].
  assert (S1 : w1 = world (store w)
                 (fastapi_limiter.set_px (now r1) (client_host r1) 1 5000 (limiter w))
                 (journal w ++ [SELECT_all])).
  { subst w1. rewrite serve_get_clients. unfold fastapi_limiter.script. rewrite H0.
    reflexivity. }
  replace (clients (store w)) with (clients (store w1)) by now rewrite S1.
  apply list_call_under_limit.
  rewrite S1, H2. cbn [world limiter]. rewrite current_set_px by lia. lia.
Qed.

(** ** The invariant of the store *)

Create HintDb store.

Lemma db_ok_empty : db_ok empty_db.
Proof.
  unfold db_ok, empty_db; cbn. repeat split; try lia; try constructor; tauto.
Qed.

Lemma fresh_key d :
  db_ok d -> existsb (orm.by_id (clients_id_seq d)) (clients d) = false.
Proof.
  intros (_ & H & _). apply not_true_is_false. rewrite existsb_exists.
  intros [c [Hc E]]. apply by_id_true in E. apply H in Hc. lia.
Qed.

Lemma db_ok_delete c d : db_ok d -> db_ok (orm.delete_row c d).
Proof.
  intros (Hs & Hk & Hi & He). unfold orm.delete_row.
  split; [exact Hs|]. split; [|split]; cbn [clients clients_id_seq].
  - intros x Hx. apply Hk. now apply filter_In in Hx.
  - now apply NoDup_map_filter.
  - now apply NoDup_map_filter.
Qed.

Lemma db_ok_skip d :
  db_ok d ->
  db_ok {| clients := clients d; clients_id_seq := clients_id_seq d + 1 |}.
Proof.
  intros (Hs & Hk & Hi & He).
  split; [cbn; lia|]. split; [|split]; cbn [clients clients_id_seq]; auto.
  intros x Hx. apply Hk in Hx. lia.
Qed.

Lemma db_ok_insert t body d :
  db_ok d -> email_taken (schemas.email body) d = false ->
  db_ok {| clients := clients d ++ [created t (clients_id_seq d) body];
           clients_id_seq := clients_id_seq d + 1 |}.
Proof.
  intros (Hs & Hk & Hi & He) Hfree.
  split; [cbn; lia|]. split; [|split]; cbn [clients clients_id_seq].
  - intros x Hx. apply in_app_or in Hx.
    destruct Hx as [Hx|[<-|[]]]; cbn [id created].
    + apply Hk in Hx. lia.
    + lia.
  - rewrite map_app. apply NoDup_app; [exact Hi|repeat constructor; intros []|].
    cbn. intros a Ha [<-|[]]. apply in_map_iff in Ha. destruct Ha as [x [E Hx]].
    apply Hk in Hx. lia.
  - rewrite map_app. apply NoDup_app; [exact He|repeat constructor; intros []|].
    cbn. intros a Ha [<-|[]]. apply in_map_iff in Ha. destruct Ha as [x [E Hx]].
    apply not_true_iff_false in Hfree. apply Hfree. apply email_taken_true. eauto.
Qed.

Lemma map_id_updated t k body rows :
  map id
    (map (fun row =>
            if orm.by_id k row then orm.written t (assigned body row) row
            else row) rows)
  = map id rows.
Proof.
  rewrite map_map. apply map_ext. intros row. now destruct (orm.by_id k row).
Qed.

Lemma In_updated t k body rows x :
  In x (map (fun row =>
               if orm.by_id k row then orm.written t (assigned body row) row
               else row) rows) ->
  exists row,
    In row rows /\ id x = id row
    /\ (email x = email row \/ (id row = k /\ email x = schemas.email body)).
Proof.
  rewrite in_map_iff. intros [row [E H]]. exists row. split; [exact H|].
  destruct (orm.by_id k row) eqn:Ek; subst x; cbn; auto.
  apply by_id_true in Ek. auto.
Qed.

Lemma NoDup_emails_updated t k body rows :
  NoDup (map id rows) -> NoDup (map email rows) ->
  (forall o, In o rows -> id o <> k -> email o <> schemas.email body) ->
  NoDup (map email
           (map (fun row =>
                   if orm.by_id k row then orm.written t (assigned body row) row
                   else row) rows)).
Proof.
  induction rows as [|x rows IH]; cbn [map]; [constructor|].
  intros Hi He Hfree.
  inversion Hi as [|? ? Hni Hi']; subst. inversion He as [|? ? Hne He']; subst.
  constructor.
  - rewrite in_map_iff. intros [y [Ey Hy]].
    apply In_updated in Hy. destruct Hy as [row [Hrow [Eid Hem]]].
    destruct (orm.by_id k x) eqn:Ek.
    + apply by_id_true in Ek. cbn in Ey.
      assert (id row <> k).
      { intros E. apply Hni. rewrite Ek, <- E. now apply in_map. }
      destruct Hem as [Hem|[Hem _]]; [|contradiction].
      apply (Hfree row); [now right|assumption|congruence].
    + assert (Hxk : id x <> k).
      { intros E. apply by_id_true in E. congruence. }
      destruct Hem as [Hem|[_ Hem]].
      * apply Hne. rewrite <- Ey, Hem. now apply in_map.
      * apply (Hfree x); [now left|assumption|congruence].
  - apply IH; auto. intros o Ho. apply Hfree. now right.
Qed.

Lemma db_ok_updated t k body d c :
  db_ok d -> record_of k d = Some c ->
  negb (String.eqb (schemas.email body) (email c))
  && email_taken_by_other k (schemas.email body) d = false ->
  db_ok (updated t k body d).
Proof.
  intros (Hs & Hk & Hi & He) Hc Hfree.
  destruct (record_of_some _ _ _ Hc) as [Hin Hid].
  split; [exact Hs|]. split; [|split]; unfold updated; cbn [clients clients_id_seq].
  - intros x Hx. apply In_updated in Hx. destruct Hx as [row [Hrow [E _]]].
    rewrite E. now apply Hk.
  - now rewrite map_id_updated.
  - apply NoDup_emails_updated; auto.
    intros o Ho Hne Heq.
    apply andb_false_iff in Hfree. destruct Hfree as [Hfree|Hfree].
    + apply negb_false_iff, String.eqb_eq in Hfree.
      assert (c = o) by (apply (NoDup_map_eq email _ _ _ He Hin Ho); congruence).
      congruence.
    + apply not_true_iff_false in Hfree. apply Hfree.
      apply email_taken_by_other_true. eauto.
Qed.

#[local] Hint Resolve db_ok_delete db_ok_skip db_ok_insert : store.

(** Every request leaves a store that satisfies the invariant. *)
Lemma serve_keeps_db_ok defaults op r w :
  db_ok (store w) -> db_ok (store (snd (serve defaults op r w))).
Proof.
  intros Hok.
  destruct (existsb (Role_eqb (role_of r)) (allowed_set op)) eqn:Hr.
  - apply existsb_Role in Hr. destruct op.
    + rewrite serve_get_clients.
      destruct (fastapi_limiter.script _ _ _ _ _) as [pexpire cs].
      now destruct (pexpire =? 0).
    + rewrite serve_run, get_db_session, run_get_clients_by_birth_date;
        [exact Hok|discriminate|assumption].
    + rewrite serve_run, get_db_session, run_get_client;
        [|discriminate|assumption].
      branches; exact Hok.
    + rewrite serve_run, get_db_session, run_create_client;
        [|discriminate|assumption].
      cbv zeta. destruct (email_taken _ _) eqn:Ht; [exact Hok|].
      destruct (existsb _ _); cbn [snd world store]; auto with store.
    + rewrite serve_run, get_db_session, run_update_client;
        [|discriminate|assumption].
      destruct (1 <=? client_id); [|exact Hok].
      destruct (record_of client_id (store w)) as [c|] eqn:Hc; [|exact Hok].
      destruct (holdsb body c); [exact Hok|].
      destruct (negb _ && _) eqn:Hfree; [exact Hok|].
      cbn [snd world store]. now apply (db_ok_updated _ _ _ _ c).
    + rewrite serve_run, get_db_session, run_remove_client;
        [|discriminate|assumption].
      destruct (1 <=? client_id); [|exact Hok].
      destruct (record_of client_id (store w)) as [c|]; [|exact Hok].
      cbn [snd world store]. auto with store.
  - rewrite serve_denied; [exact Hok|]. rewrite <- existsb_Role. congruence.
Qed.

Lemma db_ok_two_clients : db_ok (store two_clients).
Proof.
  split; [cbn; lia|]. split; [|split]; cbn.
  - intros c [<-|[<-|[]]]; cbn; lia.
  - repeat constructor; cbn; intuition discriminate.
  - repeat constructor; cbn; intuition discriminate.
Defined.

(** ** The access gate *)

(** C1. The allowed-role sets are admin, moderator and user for list,
    birthday query, get-by-id and create, admin and moderator for update,
    and admin for delete; an operation called with a role outside its set
    answers Forbidden and leaves the store, the counters of the limiter and
    the journal as they were. *)
Theorem forbidden_outside_allowed_set :
  (forall op,
     allowed_set op =
     match op with
     | PUT_client _ _ => [admin; moderator]
     | DELETE_client _ => [admin]
     | _ => [admin; moderator; user]
     end)
  /\ (forall defaults op r w,
        ~ In (role_of r) (allowed_set op) ->
        serve defaults op r w = (Forbidden, w)).
Proof.
  split.
  - intros op. destruct op; reflexivity.
  - intros. now apply serve_denied.
Qed.

Lemma forbidden_outside_allowed_set_witness :
  ~ In (role_of (request_at user 5000)) (allowed_set (PUT_client 1 bob))
  /\ serve defaults_2023_07_07 (PUT_client 1 bob) (request_at user 5000) two_clients
     = (Forbidden, two_clients).
Proof.
  assert (H : ~ In (role_of (request_at user 5000))
                (allowed_set (PUT_client 1 bob))).
  { cbn. intros [H|[H|[]]]; discriminate H. }
  split; [exact H|].
  exact (proj2 forbidden_outside_allowed_set _ _ _ _ H).
Defined.

(** ** The birthday query *)

Lemma serve_birthday defaults start_date end_date r w :
  serve defaults (GET_birthday start_date end_date) r w
  = ({| status := 200;
        content :=
          Clients (filter (in_bandb (Query (start_date_default defaults) start_date)
                             (Query (end_date_default defaults) end_date))
                     (clients (store w))) |},
     journaled [SELECT_where] w).
Proof.
  rewrite serve_run; [|discriminate|apply every_role_reads].
  now rewrite get_db_session, run_get_clients_by_birth_date.
Qed.

(** C2. The birthday query with the dates [start_date] and [end_date]
    returns a client if and only if the client is stored and the day and
    the month of its birthday lie, each on its own and whatever the year,
    between those of [start_date] and those of [end_date]. *)
Theorem birthday_query_band defaults start_date end_date r w :
  exists l,
    serve defaults (GET_birthday (Some start_date) (Some end_date)) r w
    = ({| status := 200; content := Clients l |}, journaled [SELECT_where] w)
    /\ forall c,
         In c l <-> In c (clients (store w)) /\ in_band start_date end_date c.
Proof.
  rewrite serve_birthday. eexists. split; [reflexivity|].
  intros c. cbn [Query]. now rewrite filter_In, in_bandb_true.
Qed.

(** The query from 2020-01-01 to 2020-01-08 returns the stored clients born
    on a day from 1 to 8 of a January. *)
Lemma birthday_first_days_of_january defaults r w c :
  let l := filter (in_bandb (datetime.Date 2020 1 1) (datetime.Date 2020 1 8))
             (clients (store w)) in
  fst (serve defaults
         (GET_birthday (Some (datetime.Date 2020 1 1)) (Some (datetime.Date 2020 1 8)))
         r w)
  = {| status := 200; content := Clients l |}
  /\ (In c l <->
      In c (clients (store w))
      /\ 1 <= datetime.day (birthday c) <= 8
      /\ datetime.month (birthday c) = 1).
Proof.
  intros l. rewrite serve_birthday. split; [reflexivity|].
  subst l. rewrite filter_In, in_bandb_true. unfold in_band. cbn. intuition lia.
Qed.

(** Dates that a request leaves out take the values computed when the
    module was loaded, whatever the date of the request. *)
Lemma omitted_dates_take_import_defaults day defaults r w :
  import_module day = Return defaults ->
  start_date_default defaults = day
  /\ datetime.add_days day 7 = Some (end_date_default defaults)
  /\ serve defaults (GET_birthday None None) r w
     = serve defaults
         (GET_birthday (Some day) (Some (end_date_default defaults))) r w.
Proof.
  unfold import_module. destruct (datetime.add_days day 7) as [d|]; [|discriminate].
  intros E. injection E as <-. split; [reflexivity|]. split; [reflexivity|].
  now rewrite !serve_birthday.
Qed.

(** C8. With the module loaded on 2023-07-07 and both dates left out of a
    request made on 2023-07-08, the query runs from 2023-07-07 to
    2023-07-14, the dates of the load, and returns Alice (born on a 7th of
    July); the dates of the request, 2023-07-08 to 2023-07-15, select Bob
    (born on a 15th of July) instead. *)
Theorem birthday_defaults_fixed_at_import :
  let r := request_at user noon_2023_07_08 in
  import_module (datetime.Date 2023 7 7) = Return defaults_2023_07_07
  /\ today (now r) = datetime.Date 2023 7 8
  /\ datetime.add_days (today (now r)) 7 = Some (datetime.Date 2023 7 15)
  /\ serve defaults_2023_07_07 (GET_birthday None None) r two_clients
     = serve defaults_2023_07_07
         (GET_birthday (Some (datetime.Date 2023 7 7)) (Some (datetime.Date 2023 7 14)))
         r two_clients
  /\ fst (serve defaults_2023_07_07 (GET_birthday None None) r two_clients)
     = {| status := 200; content := Clients [created 1000 1 alice] |}
  /\ fst (serve defaults_2023_07_07
            (GET_birthday (Some (datetime.Date 2023 7 8))
               (Some (datetime.Date 2023 7 15)))
            r two_clients)
     = {| status := 200; content := Clients [created 2000 2 bob] |}.
Proof. repeat split. Qed.

(** ** Identifiers *)

(** C7. An identifier below 1 passed to get-by-id, update or delete (by a
    caller whose role the operation allows) fails validation and leaves the
    world as it was: no statement reaches the store.  For an identifier
    from 1 on, get-by-id returns the record that has it, and answers
    NotFound if and only if no record has it. *)
Theorem identifier_validation defaults client_id body r w :
  (client_id < 1 ->
     serve defaults (GET_client client_id) r w = (Invalid, w)
     /\ (In (role_of r) (allowed_set (PUT_client client_id body)) ->
         serve defaults (PUT_client client_id body) r w = (Invalid, w))
     /\ (In (role_of r) (allowed_set (DELETE_client client_id)) ->
         serve defaults (DELETE_client client_id) r w = (Invalid, w)))
  /\ (1 <= client_id ->
      (forall c,
         record_of client_id (store w) = Some c ->
         In c (clients (store w)) /\ id c = client_id
         /\ serve defaults (GET_client client_id) r w
            = ({| status := 200; content := OneClient c |},
               journaled [SELECT_by_id client_id] w))
      /\ (fst (serve defaults (GET_client client_id) r w) = NotFound
          <-> forall c, In c (clients (store w)) -> id c <> client_id)).
Proof.
  split.
  - intros Hk. apply Z.leb_gt in Hk.
    split; [|split]; [|intros Hr..];
      (rewrite serve_run;
       [|discriminate|first [assumption|apply every_role_reads]]);
      rewrite get_db_session.
    + rewrite run_get_client, Hk. cbn. now rewrite World_eta.
    + rewrite run_update_client, Hk. cbn. now rewrite World_eta.
    + rewrite run_remove_client, Hk. cbn. now rewrite World_eta.
  - intros Hk. apply Z.leb_le in Hk.
    rewrite serve_run; [|discriminate|apply every_role_reads].
    rewrite get_db_session, run_get_client, Hk.
    split.
    + intros c Hc. rewrite Hc. destruct (record_of_some _ _ _ Hc). auto.
    + rewrite <- record_of_none.
      destruct (record_of client_id (store w)); cbn; unfold NotFound, failure; cbn;
        split; congruence.
Qed.

Lemma identifier_validation_witness :
  (0 < 1
   /\ In (role_of (request_at admin 5000)) (allowed_set (PUT_client 0 bob))
   /\ In (role_of (request_at admin 5000)) (allowed_set (DELETE_client 0))
   /\ serve defaults_2023_07_07 (GET_client 0) (request_at admin 5000) two_clients
      = (Invalid, two_clients)
   /\ serve defaults_2023_07_07 (PUT_client 0 bob) (request_at admin 5000) two_clients
      = (Invalid, two_clients)
   /\ serve defaults_2023_07_07 (DELETE_client 0) (request_at admin 5000) two_clients
      = (Invalid, two_clients))
  /\ (1 <= 2
      /\ record_of 2 (store two_clients) = Some (created 2000 2 bob)
      /\ serve defaults_2023_07_07 (GET_client 2) (request_at user 5000) two_clients
         = ({| status := 200; content := OneClient (created 2000 2 bob) |},
            journaled [SELECT_by_id 2] two_clients)).
Proof.
  split.
  - assert (H : 0 < 1) by lia.
    assert (Hu : In (role_of (request_at admin 5000))
                   (allowed_set (PUT_client 0 bob))) by (cbn; auto).
    assert (Hd : In (role_of (request_at admin 5000))
                   (allowed_set (DELETE_client 0))) by (cbn; auto).
    destruct (proj1 (identifier_validation defaults_2023_07_07 0 bob
                       (request_at admin 5000) two_clients) H)
      as (Eg & Eu & Ed).
    repeat split; auto.
  - assert (H : 1 <= 2) by lia.
    assert (Hc : record_of 2 (store two_clients) = Some (created 2000 2 bob))
      by reflexivity.
    destruct (proj2 (identifier_validation defaults_2023_07_07 2 bob
                       (request_at user 5000) two_clients) H)
      as (Eg & _).
    destruct (Eg _ Hc) as (_ & _ & E).
    repeat split; auto.
Defined.

(** ** Create *)

(** C3, as stated, fails: with Bob stored, a payload that carries Bob's
    email is answered Conflict (409) after the lookup by email, and the
    store itself refuses the insert of that email when [create] is run
    without the lookup. *)
Lemma create_rejects_duplicate_email :
  serve defaults_2023_07_07 (POST_client alice_as_bob) (request_at user 5000)
    two_clients
  = (Conflict, journaled [SELECT_by_email "bob@example.com"] two_clients)
  /\ status Conflict = 409
  /\ run (repository_clients.create alice_as_bob) (request_at user 5000)
       (get_db two_clients)
     = (Raise IntegrityError,
        {| store := {| clients := clients (store two_clients);
                       clients_id_seq := 4 |};
           limiter := []; journal := [INSERT 3; ROLLBACK] |}).
Proof. repeat split. Qed.

(** C3, amended.  The create operation looks the email of the payload up
    before it writes: when a stored client has that email the answer is
    Conflict and nothing is written; and the store enforces the uniqueness
    of the email of clients too, so that [create] alone is refused with an
    integrity error and leaves the rows as they were. *)
Theorem create_checks_email_uniqueness defaults body r w :
  (exists c, In c (clients (store w)) /\ email c = schemas.email body) ->
  serve defaults (POST_client body) r w
  = (Conflict, journaled [SELECT_by_email (schemas.email body)] w)
  /\ exists w',
       run (repository_clients.create body) r (get_db w)
       = (Raise IntegrityError, w')
       /\ clients (store w') = clients (store w).
Proof.
  intros H. apply email_taken_true in H. split.
  - rewrite serve_run; [|discriminate|apply every_role_reads].
    rewrite get_db_session, run_create_client. cbv zeta. now rewrite H.
  - rewrite get_db_session, run_create. cbv zeta. rewrite H, orb_true_r.
    eexists. split; reflexivity.
Qed.

Lemma create_checks_email_uniqueness_witness :
  (exists c, In c (clients (store two_clients))
             /\ email c = schemas.email alice_as_bob)
  /\ serve defaults_2023_07_07 (POST_client alice_as_bob) (request_at user 5000)
       two_clients
     = (Conflict,
        journaled [SELECT_by_email (schemas.email alice_as_bob)] two_clients).
Proof.
  assert (H : exists c, In c (clients (store two_clients))
                        /\ email c = schemas.email alice_as_bob).
  { exists (created 2000 2 bob). split; [cbn; auto|reflexivity]. }
  split; [exact H|].
  exact (proj1 (create_checks_email_uniqueness defaults_2023_07_07 alice_as_bob
                  (request_at user 5000) two_clients H)).
Defined.

(** C4. A create request whose email is the email of a stored client is
    answered Conflict (409) and adds no record; any other create request is
    answered 201 with the new client, which carries the payload, the next
    key of the sequence and the time of the request, and which is the one
    record added to the store. *)
Theorem create_conflict_or_created defaults body r w :
  db_ok (store w) ->
  ((exists c, In c (clients (store w)) /\ email c = schemas.email body) ->
     serve defaults (POST_client body) r w
     = (Conflict, journaled [SELECT_by_email (schemas.email body)] w))
  /\ ((forall c, In c (clients (store w)) -> email c <> schemas.email body) ->
      exists c w',
        serve defaults (POST_client body) r w
        = ({| status := 201; content := OneClient c |}, w')
        /\ holds body c
        /\ id c = clients_id_seq (store w)
        /\ created_at c = now r /\ updated_at c = now r
        /\ clients (store w') = clients (store w) ++ [c]
        /\ record_of (id c) (store w') = Some c).
Proof.
  intros Hok.
  rewrite serve_run; [|discriminate|apply every_role_reads].
  rewrite get_db_session, run_create_client. cbv zeta.
  split.
  - intros H. apply email_taken_true in H. now rewrite H.
  - intros H.
    assert (E : email_taken (schemas.email body) (store w) = false).
    { apply not_true_is_false. rewrite email_taken_true. intros [c [Hc Hc']].
      exact (H c Hc Hc'). }
    rewrite E, (fresh_key _ Hok).
    eexists. eexists. split; [reflexivity|].
    cbn [world store clients created id created_at updated_at].
    repeat split.
    unfold record_of. cbn [clients].
    rewrite find_app_fresh.
    + unfold orm.by_id. cbn [id]. now rewrite Z.eqb_refl.
    + apply find_none_existsb. exact (fresh_key _ Hok).
Qed.

Lemma create_conflict_or_created_witness :
  db_ok (store two_clients)
  /\ serve defaults_2023_07_07 (POST_client alice_as_bob) (request_at user 5000)
       two_clients
     = (Conflict,
        journaled [SELECT_by_email (schemas.email alice_as_bob)] two_clients)
  /\ exists c w',
       serve defaults_2023_07_07 (POST_client carol) (request_at user 5000)
         two_clients
       = ({| status := 201; content := OneClient c |}, w')
       /\ holds carol c
       /\ id c = 3
       /\ clients (store w') = clients (store two_clients) ++ [c].
Proof.
  split; [exact db_ok_two_clients|]. split.
  - apply (proj1 (create_conflict_or_created defaults_2023_07_07 alice_as_bob
                    (request_at user 5000) two_clients db_ok_two_clients)).
    exists (created 2000 2 bob). split; [cbn; auto|reflexivity].
  - destruct (proj2 (create_conflict_or_created defaults_2023_07_07 carol
                       (request_at user 5000) two_clients db_ok_two_clients))
      as (c & w' & E & Hh & Hid & _ & _ & Hrows & _).
    { cbn. intros c [<-|[<-|[]]]; discriminate. }
    exists c, w'. auto.
Defined.

(** ** Update *)

(** C5, as stated, fails.  Alice exists, yet an update that gives her Bob's
    email is refused by the store and replaces nothing; and an update that
    repeats her stored fields writes nothing, so that her last-update
    timestamp stays at 1000 for a request made at 5000. *)
Lemma update_not_always_replacing :
  record_of 1 (store two_clients) = Some (created 1000 1 alice)
  /\ serve defaults_2023_07_07 (PUT_client 1 alice_as_bob) (request_at admin 5000)
       two_clients
     = (failure IntegrityError,
        journaled [SELECT_by_id 1; UPDATE 1; ROLLBACK] two_clients)
  /\ email (created 1000 1 alice) <> schemas.email alice_as_bob
  /\ serve defaults_2023_07_07 (PUT_client 1 alice) (request_at admin 5000)
       two_clients
     = ({| status := 200; content := OneClient (created 1000 1 alice) |},
        journaled [SELECT_by_id 1; COMMIT; SELECT_by_id 1] two_clients)
  /\ updated_at (created 1000 1 alice) <> now (request_at admin 5000).
Proof.
  split; [reflexivity|]. split; [reflexivity|]. split; [discriminate|].
  split; [reflexivity|]. discriminate.
Qed.

(** C5, amended.  For an identifier from 1 on and a caller allowed to
    update: when no record has the identifier the answer is NotFound and
    the store is not written; when a record has it and no other record
    holds the email of the payload, the record afterwards carries every
    mutable field of the payload, keeps its identifier and its creation
    timestamp, and its last-update timestamp is the time of the request if
    the payload changed a field, and is left as it was if the payload
    repeats the stored fields; the other records are as before. *)
Theorem update_contract defaults client_id body r w :
  1 <= client_id ->
  In (role_of r) (allowed_set (PUT_client client_id body)) ->
  (record_of client_id (store w) = None ->
     serve defaults (PUT_client client_id body) r w
     = (NotFound, journaled [SELECT_by_id client_id] w))
  /\ (forall c,
        record_of client_id (store w) = Some c ->
        (forall o, In o (clients (store w)) -> id o <> client_id ->
                   email o <> schemas.email body) ->
        exists c' w',
          serve defaults (PUT_client client_id body) r w
          = ({| status := 200; content := OneClient c' |}, w')
          /\ record_of client_id (store w') = Some c'
          /\ id c' = client_id
          /\ holds body c'
          /\ created_at c' = created_at c
          /\ updated_at c' = (if holdsb body c then updated_at c else now r)
          /\ forall k, k <> client_id ->
                       record_of k (store w') = record_of k (store w)).
Proof.
  intros Hk Hr. apply Z.leb_le in Hk.
  rewrite serve_run; [|discriminate|assumption].
  rewrite get_db_session, run_update_client, Hk.
  split.
  - intros ->. reflexivity.
  - intros c Hc Hfree. rewrite Hc.
    destruct (record_of_some _ _ _ Hc) as [Hin Hid].
    assert (E : email_taken_by_other client_id (schemas.email body) (store w)
                = false).
    { apply not_true_is_false. rewrite email_taken_by_other_true.
      intros [o [Ho [Hne He]]]. exact (Hfree o Ho Hne He). }
    rewrite E, andb_false_r.
    destruct (holdsb body c) eqn:Hh.
    + exists c. eexists. split; [reflexivity|]. cbn [world store].
      apply holdsb_true in Hh. auto 10.
    + eexists. eexists. split; [reflexivity|]. cbn [world store].
      split; [|split; [|split; [|split; [|split]]]].
      * unfold record_of, updated. cbn [clients].
        rewrite find_map_if by (intros x Hx; exact Hx).
        unfold record_of in Hc. now rewrite Hc.
      * exact Hid.
      * apply holds_written.
      * reflexivity.
      * reflexivity.
      * intros k Hne. unfold record_of, updated. cbn [clients].
        now apply find_map_other.
Qed.

Lemma update_contract_witness :
  1 <= 7
  /\ In (role_of (request_at moderator 5000)) (allowed_set (PUT_client 7 carol))
  /\ record_of 7 (store two_clients) = None
  /\ serve defaults_2023_07_07 (PUT_client 7 carol) (request_at moderator 5000)
       two_clients
     = (NotFound, journaled [SELECT_by_id 7] two_clients)
  /\ record_of 1 (store two_clients) = Some (created 1000 1 alice)
  /\ exists c' w',
       serve defaults_2023_07_07 (PUT_client 1 carol) (request_at moderator 5000)
         two_clients
       = ({| status := 200; content := OneClient c' |}, w')
       /\ record_of 1 (store w') = Some c'
       /\ holds carol c'
       /\ updated_at c' = 5000.
Proof.
  assert (H7 : 1 <= 7) by lia.
  assert (H1 : 1 <= 1) by lia.
  assert (Hr : forall k, In (role_of (request_at moderator 5000))
                           (allowed_set (PUT_client k carol)))
    by (intros k; cbn; auto).
  split; [exact H7|]. split; [apply Hr|]. split; [reflexivity|]. split.
  - exact (proj1 (update_contract defaults_2023_07_07 7 carol
                    (request_at moderator 5000) two_clients H7 (Hr 7))
             eq_refl).
  - split; [reflexivity|].
    destruct (proj2 (update_contract defaults_2023_07_07 1 carol
                       (request_at moderator 5000) two_clients H1 (Hr 1))
                (created 1000 1 alice) eq_refl)
      as (c' & w' & E & Hrec & _ & Hh & _ & Ht & _).
    { cbn. intros o [<-|[<-|[]]]; cbn; intros; [lia|discriminate]. }
    exists c', w'. auto.
Defined.

(** C10. Update looks no email up: when the caller may update, the store
    satisfies its invariant, the record exists and another record holds the
    email of the payload, the only statements are the SELECT by key and the
    UPDATE, which the unique email of the store refuses; the request ends
    in the store failure (500), not in Conflict, and the store is as it
    was. *)
Theorem update_email_clash_is_store_failure defaults client_id body r w c o :
  1 <= client_id ->
  In (role_of r) (allowed_set (PUT_client client_id body)) ->
  db_ok (store w) ->
  record_of client_id (store w) = Some c ->
  In o (clients (store w)) -> id o <> client_id -> email o = schemas.email body ->
  serve defaults (PUT_client client_id body) r w
  = (failure IntegrityError,
     journaled [SELECT_by_id client_id; UPDATE client_id; ROLLBACK] w)
  /\ status (failure IntegrityError) = 500
  /\ failure IntegrityError <> Conflict.
Proof.
  intros Hk Hr Hok Hc Ho Hne He. apply Z.leb_le in Hk.
  split; [|split; [reflexivity|discriminate]].
  rewrite serve_run; [|discriminate|assumption].
  rewrite get_db_session, run_update_client, Hk, Hc.
  destruct (record_of_some _ _ _ Hc) as [Hin Hid].
  assert (Hce : email c <> schemas.email body).
  { intros E. destruct Hok as (_ & _ & _ & Hnd).
    assert (c = o) by (apply (NoDup_map_eq email _ _ _ Hnd Hin Ho); congruence).
    congruence. }
  assert (Hh : holdsb body c = false).
  { apply not_true_is_false. rewrite holdsb_true. unfold holds. tauto. }
  assert (Hneq : String.eqb (schemas.email body) (email c) = false).
  { apply String.eqb_neq. congruence. }
  assert (Ht : email_taken_by_other client_id (schemas.email body) (store w)
               = true).
  { apply email_taken_by_other_true. eauto. }
  rewrite Hh, Hneq, Ht. reflexivity.
Qed.

Lemma update_email_clash_is_store_failure_witness :
  1 <= 1
  /\ In (role_of (request_at admin 5000)) (allowed_set (PUT_client 1 alice_as_bob))
  /\ db_ok (store two_clients)
  /\ record_of 1 (store two_clients) = Some (created 1000 1 alice)
  /\ In (created 2000 2 bob) (clients (store two_clients))
  /\ id (created 2000 2 bob) <> 1
  /\ email (created 2000 2 bob) = schemas.email alice_as_bob
  /\ serve defaults_2023_07_07 (PUT_client 1 alice_as_bob) (request_at admin 5000)
       two_clients
     = (failure IntegrityError,
        journaled [SELECT_by_id 1; UPDATE 1; ROLLBACK] two_clients).
Proof.
  assert (H1 : 1 <= 1) by lia.
  assert (Hr : In (role_of (request_at admin 5000))
                 (allowed_set (PUT_client 1 alice_as_bob))) by (cbn; auto).
  assert (Hc : record_of 1 (store two_clients) = Some (created 1000 1 alice))
    by reflexivity.
  assert (Ho : In (created 2000 2 bob) (clients (store two_clients)))
    by (cbn; auto).
  assert (Hne : id (created 2000 2 bob) <> 1) by (cbn; lia).
  assert (He : email (created 2000 2 bob) = schemas.email alice_as_bob)
    by reflexivity.
  repeat (split; [assumption || exact db_ok_two_clients|]).
  exact (proj1 (update_email_clash_is_store_failure defaults_2023_07_07 1
                  alice_as_bob (request_at admin 5000) two_clients _ _
                  H1 Hr db_ok_two_clients Hc Ho Hne He)).
Defined.

(** ** Delete *)

(** C6. For an identifier from 1 on and a caller allowed to delete: when
    no record has the identifier the answer is NotFound and the store is as
    it was; when a record has it, the answer carries that record as it was
    loaded, the record is gone from the store, the other records are as
    before, and a get-by-id of the identifier that follows answers
    NotFound. *)
Theorem remove_contract defaults client_id r w :
  1 <= client_id ->
  In (role_of r) (allowed_set (DELETE_client client_id)) ->
  (record_of client_id (store w) = None ->
     serve defaults (DELETE_client client_id) r w
     = (NotFound, journaled [SELECT_by_id client_id] w))
  /\ (forall c,
        record_of client_id (store w) = Some c ->
        exists w',
          serve defaults (DELETE_client client_id) r w
          = ({| status := 204; content := OneClient c |}, w')
          /\ record_of client_id (store w') = None
          /\ (forall k, k <> client_id ->
                        record_of k (store w') = record_of k (store w))
          /\ forall r',
               fst (serve defaults (GET_client client_id) r' w') = NotFound).
Proof.
  intros Hk Hr. apply Z.leb_le in Hk.
  rewrite serve_run; [|discriminate|assumption].
  rewrite get_db_session, run_remove_client, Hk.
  split.
  - intros ->. reflexivity.
  - intros c Hc. rewrite Hc. eexists. split; [reflexivity|].
    destruct (record_of_some _ _ _ Hc) as [_ Hid].
    assert (Hgone : record_of client_id (orm.delete_row c (store w)) = None).
    { unfold record_of, orm.delete_row. cbn [clients]. rewrite Hid.
      apply find_filter_negb. }
    cbn [world store]. split; [exact Hgone|]. split.
    + intros k Hne. unfold record_of, orm.delete_row. cbn [clients]. rewrite Hid.
      now apply find_filter_other.
    + intros r'. rewrite serve_run; [|discriminate|apply every_role_reads].
      rewrite get_db_session, run_get_client, Hk. cbn [world store].
      now rewrite Hgone.
Qed.

Lemma remove_contract_witness :
  1 <= 7
  /\ In (role_of (request_at admin 5000)) (allowed_set (DELETE_client 7))
  /\ record_of 7 (store two_clients) = None
  /\ serve defaults_2023_07_07 (DELETE_client 7) (request_at admin 5000) two_clients
     = (NotFound, journaled [SELECT_by_id 7] two_clients)
  /\ record_of 2 (store two_clients) = Some (created 2000 2 bob)
  /\ exists w',
       serve defaults_2023_07_07 (DELETE_client 2) (request_at admin 5000)
         two_clients
       = ({| status := 204; content := OneClient (created 2000 2 bob) |}, w')
       /\ record_of 2 (store w') = None
       /\ fst (serve defaults_2023_07_07 (GET_client 2) (request_at user 6000) w')
          = NotFound.
Proof.
  assert (H7 : 1 <= 7) by lia.
  assert (H2 : 1 <= 2) by lia.
  assert (Hr : forall k, In (role_of (request_at admin 5000))
                           (allowed_set (DELETE_client k)))
    by (intros k; cbn; auto).
  split; [exact H7|]. split; [apply Hr|]. split; [reflexivity|]. split.
  - exact (proj1 (remove_contract defaults_2023_07_07 7
                    (request_at admin 5000) two_clients H7 (Hr 7)) eq_refl).
  - split; [reflexivity|].
    destruct (proj2 (remove_contract defaults_2023_07_07 2
                       (request_at admin 5000) two_clients H2 (Hr 2))
                (created 2000 2 bob) eq_refl)
      as (w' & E & Hgone & _ & Hget).
    exists w'. auto.
Defined.

(** ** The rate limit *)

(** C9. The limit of 2 calls in 5 seconds is a dependency of the list
    route and of no other route.  For a caller with no running window the
    calls are counted: the first list call and a second one less than 5
    seconds after it are answered with all the rows, every later list call
    in those 5 seconds is answered with the throttling error and leaves
    the store, the counters and the journal as they were, a list call made
    once the 5 seconds are over is answered again, and so is, all along,
    the list call of another caller with fewer than 2 calls counted.  A
    list call of a caller with 2 calls counted in the running window is
    refused in the same way; and an operation other than list leaves the
    counters as they were and answers the same whatever they hold. *)
Theorem rate_limit_only_on_list :
  (forall op,
     rate_limits op = match op with GET_clients => [(2, 5)] | _ => [] end)
  /\ (forall defaults r1 r2 r3 r4 r5 w,
        client_host r2 = client_host r1 -> client_host r3 = client_host r1 ->
        client_host r4 = client_host r1 -> client_host r5 <> client_host r1 ->
        now r1 <= now r2 <= now r3 -> now r3 < now r1 + 5000 ->
        now r1 + 5000 <= now r4 ->
        fastapi_limiter.current (now r1) (client_host r1) (limiter w) = 0 ->
        fastapi_limiter.current (now r5) (client_host r5) (limiter w) < 2 ->
        let all := {| status := 200; content := Clients (clients (store w)) |} in
        let w1 := snd (serve defaults GET_clients r1 w) in
        let w2 := snd (serve defaults GET_clients r2 w1) in
        fst (serve defaults GET_clients r1 w) = all
        /\ fst (serve defaults GET_clients r2 w1) = all
        /\ serve defaults GET_clients r3 w2 = (Throttled, w2)
        /\ fst (serve defaults GET_clients r4 w2) = all
        /\ fst (serve defaults GET_clients r5 w2) = all)
  /\ (forall defaults r w,
        2 <= fastapi_limiter.current (now r) (client_host r) (limiter w) ->
        serve defaults GET_clients r w = (Throttled, w))
  /\ (forall defaults op r w cs,
        op <> GET_clients ->
        limiter (snd (serve defaults op r w)) = limiter w
        /\ fst (serve defaults op r (world (store w) cs (journal w)))
           = fst (serve defaults op r w)).
Proof.
  split; [|split; [|split]].
  - intros op. destruct op; reflexivity.
  - intros defaults r1 r2 r3 r4 r5 w H2 H3 H4 H5 Ht Hw Hlate H0 Hother all w1 w2.
    pose proof (first_two_list_calls defaults r1 r2 w H2) as F.
    cbv zeta in F. destruct F as (F1 & F2); [lia..|assumption|].
    pose proof (third_list_call_refused defaults r1 r2 r3 w H2 H3 Ht Hw H0) as T.
    cbv zeta in T. destruct T as (_ & _ & T3).
    split; [exact F1|]. split; [exact F2|]. split; [exact T3|]. split.
    + apply list_call_after_window; auto; lia.
    + apply list_call_of_other_caller; auto; lia.
  - intros. now apply list_call_over_limit.
  - intros defaults op r w cs Hop.
    destruct (existsb (Role_eqb (role_of r)) (allowed_set op)) eqn:Hr.
    + apply existsb_Role in Hr.
      rewrite !serve_run by assumption. rewrite !get_db_session.
      cbn [world store limiter journal].
      destruct op; try congruence;
        rewrite ?run_get_clients_by_birth_date, ?run_get_client,
          ?run_create_client, ?run_update_client, ?run_remove_client;
        cbv zeta; branches; split; reflexivity.
    + assert (Hn : ~ In (role_of r) (allowed_set op)).
      { rewrite <- existsb_Role. congruence. }
      rewrite !serve_denied by assumption. split; reflexivity.
Qed.

Lemma rate_limit_only_on_list_witness :
  (now (request_at user 1000) <= now (request_at user 2000)
     <= now (request_at user 3000)
   /\ now (request_at user 3000) < now (request_at user 1000) + 5000
   /\ now (request_at user 1000) + 5000 <= now (request_at user 6000)
   /\ client_host (other_caller_at 3000) <> client_host (request_at user 1000)
   /\ fastapi_limiter.current (now (request_at user 1000))
        (client_host (request_at user 1000)) (limiter two_clients) = 0
   /\ fastapi_limiter.current (now (other_caller_at 3000))
        (client_host (other_caller_at 3000)) (limiter two_clients) < 2)
  /\ (fst (serve defaults_2023_07_07 GET_clients (request_at user 1000) two_clients)
      = {| status := 200; content := Clients (clients (store two_clients)) |}
      /\ serve defaults_2023_07_07 GET_clients (request_at user 3000) listed_twice
         = (Throttled, listed_twice)
      /\ fst (serve defaults_2023_07_07 GET_clients (request_at user 6000)
                listed_twice)
         = {| status := 200; content := Clients (clients (store two_clients)) |}
      /\ fst (serve defaults_2023_07_07 GET_clients (other_caller_at 3000)
                listed_twice)
         = {| status := 200; content := Clients (clients (store two_clients)) |})
  /\ (2 <= fastapi_limiter.current (now (request_at user 3000))
             (client_host (request_at user 3000)) (limiter listed_twice)
      /\ serve defaults_2023_07_07 GET_clients (request_at user 3000) listed_twice
         = (Throttled, listed_twice))
  /\ (GET_client 1 <> GET_clients
      /\ fst (serve defaults_2023_07_07 (GET_client 1) (request_at user 3000)
                (world (store listed_twice) [] (journal listed_twice)))
         = fst (serve defaults_2023_07_07 (GET_client 1) (request_at user 3000)
                  listed_twice)).
Proof.
  assert (Ht : now (request_at user 1000) <= now (request_at user 2000)
               <= now (request_at user 3000)) by (cbn; lia).
  assert (Hw : now (request_at user 3000) < now (request_at user 1000) + 5000)
    by (cbn; lia).
  assert (Hl : now (request_at user 1000) + 5000 <= now (request_at user 6000))
    by (cbn; lia).
  assert (H5 : client_host (other_caller_at 3000)
               <> client_host (request_at user 1000)) by discriminate.
  assert (H0 : fastapi_limiter.current (now (request_at user 1000))
                 (client_host (request_at user 1000)) (limiter two_clients) = 0)
    by reflexivity.
  assert (Ho : fastapi_limiter.current (now (other_caller_at 3000))
                 (client_host (other_caller_at 3000)) (limiter two_clients) < 2)
    by reflexivity.
  assert (Hc : 2 <= fastapi_limiter.current (now (request_at user 3000))
                      (client_host (request_at user 3000)) (limiter listed_twice))
    by (vm_compute; discriminate).
  assert (Hop : GET_client 1 <> GET_clients) by discriminate.
  split; [repeat split; assumption || (cbn; lia)|]. split.
  - pose proof (proj1 (proj2 rate_limit_only_on_list) defaults_2023_07_07
                  (request_at user 1000) (request_at user 2000)
                  (request_at user 3000) (request_at user 6000)
                  (other_caller_at 3000) two_clients
                  eq_refl eq_refl eq_refl H5 Ht Hw Hl H0 Ho) as H.
    cbv zeta in H. destruct H as (E1 & _ & E3 & E4 & E5).
    repeat split; assumption.
  - split.
    + split; [exact Hc|].
      exact (proj1 (proj2 (proj2 rate_limit_only_on_list)) defaults_2023_07_07
               (request_at user 3000) listed_twice Hc).
    + split; [exact Hop|].
      exact (proj2 (proj2 (proj2 (proj2 rate_limit_only_on_list))
                      defaults_2023_07_07 (GET_client 1) (request_at user 3000)
                      listed_twice [] Hop)).
Defined.

(** * Further properties of the operations *)

(** ** Reachable stores *)

Lemma serve_all_keeps_db_ok defaults calls w :
  db_ok (store w) -> db_ok (store (serve_all defaults calls w)).
Proof.
  revert w. induction calls as [|[op r] calls IH]; intros w H; cbn; [exact H|].
  apply IH. now apply serve_keeps_db_ok.
Qed.

(** X1. Whatever requests are served, in whatever order, from the empty
    store, no two stored clients share an identifier or an email, and every
    identifier is at least 1 and below the next value of the sequence. *)
Theorem reachable_store_is_consistent defaults calls cs j :
  let d := store (serve_all defaults calls (world empty_db cs j)) in
  NoDup (map id (clients d))
  /\ NoDup (map email (clients d))
  /\ forall c, In c (clients d) -> 1 <= id c < clients_id_seq d.
Proof.
  intros d.
  destruct (serve_all_keeps_db_ok defaults calls (world empty_db cs j) db_ok_empty)
    as (_ & Hk & Hi & He).
  auto.
Qed.

Lemma serve_get_client defaults k r w :
  serve defaults (GET_client k) r w =
  let (o, w') := run (endpoint defaults (GET_client k)) r (get_db w) in
  (answer (GET_client k) o, w').
Proof. apply serve_run; [discriminate|apply every_role_reads]. Qed.

(** X2. The three reading operations (list, birthday query, get-by-id)
    leave the store exactly as it was, whatever the caller, the parameters
    and the answer. *)
Theorem reads_leave_store defaults start_date end_date client_id r w :
  store (snd (serve defaults GET_clients r w)) = store w
  /\ store (snd (serve defaults (GET_birthday start_date end_date) r w)) = store w
  /\ store (snd (serve defaults (GET_client client_id) r w)) = store w.
Proof.
  split; [|split].
  - rewrite serve_get_clients.
    destruct (fastapi_limiter.script _ _ _ _ _) as [pexpire cs].
    now destruct (pexpire =? 0).
  - now rewrite serve_birthday.
  - rewrite serve_get_client, get_db_session, run_get_client.
    branches; reflexivity.
Qed.

Lemma allowed_dec op r :
  {In (role_of r) (allowed_set op)} + {~ In (role_of r) (allowed_set op)}.
Proof.
  destruct (existsb (Role_eqb (role_of r)) (allowed_set op)) eqn:E.
  - left. now apply existsb_Role.
  - right. rewrite <- existsb_Role. congruence.
Qed.

(** X3. An operation that answers with an error status (400 or above)
    leaves the rows of the store as they were. *)
Theorem failure_keeps_rows defaults op r w :
  400 <= status (fst (serve defaults op r w)) ->
  clients (store (snd (serve defaults op r w))) = clients (store w).
Proof.
  destruct (allowed_dec op r) as [Hr|Hr]; [|now rewrite serve_denied].
  destruct op.
  - rewrite serve_get_clients.
    destruct (fastapi_limiter.script _ _ _ _ _) as [pexpire cs].
    now destruct (pexpire =? 0).
  - now rewrite serve_birthday.
  - rewrite serve_run, get_db_session, run_get_client by (discriminate || assumption).
    branches; reflexivity.
  - rewrite serve_run, get_db_session, run_create_client by (discriminate || assumption).
    cbv zeta. branches; cbn; intros H; try reflexivity; lia.
  - rewrite serve_run, get_db_session, run_update_client by (discriminate || assumption).
    branches; cbn; intros H; try reflexivity; lia.
  - rewrite serve_run, get_db_session, run_remove_client by (discriminate || assumption).
    branches; cbn; intros H; try reflexivity; lia.
Qed.


Lemma find_unique_by {B} (f : Client -> B) (p : Client -> bool) rows c :
  NoDup (map f rows) -> In c rows -> p c = true ->
  (forall x, In x rows -> p x = true -> f x = f c) ->
  find p rows = Some c.
Proof.
  intros Hnd Hin Hp Hf.
  destruct (find p rows) as [x|] eqn:E.
  - apply find_some in E. destruct E as [Hx Hpx].
    f_equal. apply (NoDup_map_eq f rows); auto.
  - apply (find_none _ _ E) in Hin. congruence.
Qed.

Lemma record_of_stored d c :
  db_ok d -> In c (clients d) -> record_of (id c) d = Some c.
Proof.
  intros (_ & _ & Hi & _) Hin. unfold record_of.
  apply (find_unique_by id); auto.
  - now apply by_id_true.
  - intros x _ Hx. now apply by_id_true in Hx.
Qed.

Lemma lookup_by_email_run e r w :
  lookup_by_email e r w = Return (find (orm.by_email e) (clients (store w))).
Proof. reflexivity. Qed.

Lemma get_stored defaults r w c :
  db_ok (store w) -> In c (clients (store w)) ->
  serve defaults (GET_client (id c)) r w
  = ({| status := 200; content := OneClient c |},
     journaled [SELECT_by_id (id c)] w).
Proof.
  intros Hok Hin.
  rewrite serve_get_client, get_db_session, run_get_client.
  rewrite (record_of_stored (store w) c Hok Hin).
  destruct Hok as (_ & Hk & _).
  destruct (Hk c Hin) as [H1 _]. apply Z.leb_le in H1. now rewrite H1.
Qed.

Lemma lookup_stored r w c :
  db_ok (store w) -> In c (clients (store w)) ->
  lookup_by_email (email c) r w = Return (Some c).
Proof.
  intros (_ & _ & _ & He) Hin.
  rewrite lookup_by_email_run. f_equal.
  apply (find_unique_by email); auto.
  - now apply by_email_true.
  - intros x _ Hx. now apply by_email_true in Hx.
Qed.

(** X4. In a store that satisfies the invariant, every stored client is
    what get-by-id answers for its identifier and what the lookup by email
    returns for its email. *)
Theorem stored_client_is_found defaults r w c :
  db_ok (store w) -> In c (clients (store w)) ->
  serve defaults (GET_client (id c)) r w
  = ({| status := 200; content := OneClient c |},
     journaled [SELECT_by_id (id c)] w)
  /\ lookup_by_email (email c) r w = Return (Some c).
Proof.
  intros Hok Hin. split; [now apply get_stored|now apply lookup_stored].
Qed.

Lemma serve_create defaults body r w :
  serve defaults (POST_client body) r w =
  let (o, w') := run (endpoint defaults (POST_client body)) r (get_db w) in
  (answer (POST_client body) o, w').
Proof. apply serve_run; [discriminate|apply every_role_reads]. Qed.

Lemma serve_create_free defaults body r w :
  db_ok (store w) -> email_taken (schemas.email body) (store w) = false ->
  serve defaults (POST_client body) r w
  = ({| status := 201;
        content := OneClient (created (now r) (clients_id_seq (store w)) body) |},
     world {| clients := clients (store w)
                         ++ [created (now r) (clients_id_seq (store w)) body];
              clients_id_seq := clients_id_seq (store w) + 1 |}
       (limiter w)
       (journal w ++ [SELECT_by_email (schemas.email body);
                      INSERT (clients_id_seq (store w)); COMMIT;
                      SELECT_by_id (clients_id_seq (store w))])).
Proof.
  intros Hok Hfree.
  rewrite serve_create, get_db_session, run_create_client. cbv zeta.
  now rewrite Hfree, (fresh_key _ Hok).
Qed.

Lemma email_free_false body d :
  (forall c, In c (clients d) -> email c <> schemas.email body) ->
  email_taken (schemas.email body) d = false.
Proof.
  intros H. apply not_true_is_false. rewrite email_taken_true.
  intros [c [Hc Hc']]. exact (H c Hc Hc').
Qed.

(** X5. After a create that finds the email free, a get-by-id of the new
    identifier and the lookup by the new email both return the created
    client, and a further create with the same email, whatever its other
    fields, is answered Conflict and leaves the store as the first create
    left it. *)
Theorem created_client_is_found_and_kept_unique defaults body body' r r1 r2 w :
  db_ok (store w) ->
  (forall c, In c (clients (store w)) -> email c <> schemas.email body) ->
  schemas.email body' = schemas.email body ->
  let c := created (now r) (clients_id_seq (store w)) body in
  let w1 := snd (serve defaults (POST_client body) r w) in
  fst (serve defaults (POST_client body) r w)
  = {| status := 201; content := OneClient c |}
  /\ fst (serve defaults (GET_client (id c)) r1 w1)
     = {| status := 200; content := OneClient c |}
  /\ lookup_by_email (schemas.email body) r1 w1 = Return (Some c)
  /\ fst (serve defaults (POST_client body') r2 w1) = Conflict
  /\ store (snd (serve defaults (POST_client body') r2 w1)) = store w1.
Proof.
  intros Hok Hfree He c w1.
  apply email_free_false in Hfree.
  pose proof (serve_keeps_db_ok defaults (POST_client body) r w Hok) as Hok1.
  fold w1 in Hok1.
  assert (Hin : In c (clients (store w1))).
  { subst w1. rewrite serve_create_free by assumption. cbn.
    apply in_or_app. right. now left. }
  split; [now rewrite serve_create_free by assumption|].
  split; [now rewrite (get_stored defaults r1 w1 c Hok1 Hin)|].
  split; [exact (lookup_stored r1 w1 c Hok1 Hin)|].
  assert (Ht : email_taken (schemas.email body') (store w1) = true).
  { apply email_taken_true. exists c. split; [exact Hin|]. now rewrite He. }
  rewrite serve_create, get_db_session, run_create_client. cbv zeta. rewrite Ht.
  split; reflexivity.
Qed.


(** ** A deleted client does not come back *)

Lemma absent_kept defaults op r w k :
  is_create op = false ->
  record_of k (store w) = None ->
  record_of k (store (snd (serve defaults op r w))) = None.
Proof.
  intros Hop Hnone.
  destruct (allowed_dec op r) as [Hr|Hr]; [|now rewrite serve_denied].
  destruct op; [| | |discriminate Hop| |].
  - rewrite serve_get_clients. destruct (fastapi_limiter.script _ _ _ _ _) as [pexpire cs]. now destruct (pexpire =? 0).
  - now rewrite serve_birthday.
  - rewrite serve_run, get_db_session, run_get_client by (discriminate || assumption).
    branches; assumption.
  - rewrite serve_run, get_db_session, run_update_client by (discriminate || assumption).
    destruct (1 <=? client_id); [|assumption].
    destruct (record_of client_id (store w)) as [c|] eqn:Hc; [|assumption].
    destruct (holdsb body c); [assumption|].
    destruct (negb _ && _); [assumption|].
    cbn [snd world store].
    unfold record_of, updated. cbn [clients].
    rewrite find_map_other; [exact Hnone| |reflexivity].
    intros ->. congruence.
  - rewrite serve_run, get_db_session, run_remove_client by (discriminate || assumption).
    destruct (1 <=? client_id); [|assumption].
    destruct (record_of client_id (store w)) as [c|] eqn:Hc; [|assumption].
    cbn [snd world store].
    destruct (record_of_some _ _ _ Hc) as [_ Hid].
    unfold record_of, orm.delete_row. cbn [clients]. rewrite Hid.
    rewrite find_filter_other; [exact Hnone|].
    intros ->. congruence.
Qed.

Lemma absent_kept_all defaults calls w k :
  no_create calls ->
  record_of k (store w) = None ->
  record_of k (store (serve_all defaults calls w)) = None.
Proof.
  revert w. induction calls as [|[op r] calls IH]; intros w Hn H; cbn; [exact H|].
  apply IH.
  - intros call Hc. apply Hn. now right.
  - apply absent_kept; [|exact H]. apply (Hn (op, r)). now left.
Qed.

Lemma serve_remove_found defaults k r w c :
  1 <= k -> In (role_of r) (allowed_set (DELETE_client k)) ->
  record_of k (store w) = Some c ->
  serve defaults (DELETE_client k) r w
  = ({| status := 204; content := OneClient c |},
     world (orm.delete_row c (store w)) (limiter w)
       (journal w ++ [SELECT_by_id k; DELETE (id c); COMMIT])).
Proof.
  intros Hk Hr Hc. apply Z.leb_le in Hk.
  rewrite serve_run, get_db_session, run_remove_client by (discriminate || assumption).
  now rewrite Hk, Hc.
Qed.

(** X6. Once a client is deleted, no sequence of requests that are not
    creates (lists, birthday queries, gets, updates, deletes, by whatever
    callers) gives its identifier a record again: a later get-by-id of it
    answers NotFound. *)
Theorem deleted_stays_deleted defaults client_id r w c calls r' :
  1 <= client_id ->
  In (role_of r) (allowed_set (DELETE_client client_id)) ->
  record_of client_id (store w) = Some c ->
  no_create calls ->
  let w' := serve_all defaults calls (snd (serve defaults (DELETE_client client_id) r w)) in
  record_of client_id (store w') = None
  /\ fst (serve defaults (GET_client client_id) r' w') = NotFound.
Proof.
  intros Hk Hr Hc Hn w'.
  assert (H : record_of client_id (store w') = None).
  { subst w'. apply absent_kept_all; [exact Hn|].
    rewrite (serve_remove_found _ _ _ _ _ Hk Hr Hc). cbn [snd world store].
    destruct (record_of_some _ _ _ Hc) as [_ Hid].
    unfold record_of, orm.delete_row. cbn [clients]. rewrite Hid.
    apply find_filter_negb. }
  split; [exact H|].
  rewrite serve_get_client, get_db_session, run_get_client.
  apply Z.leb_le in Hk. now rewrite Hk, H.
Qed.

(** ** Update, twice *)

(** X7. An update that succeeded and is repeated with the same payload,
    by any caller allowed to update and at any later time, answers with the
    same record and writes nothing: the only statements are the SELECT, the
    COMMIT and the reload. *)
Theorem update_twice_is_update_once defaults client_id body r r' w c :
  1 <= client_id ->
  In (role_of r) (allowed_set (PUT_client client_id body)) ->
  In (role_of r') (allowed_set (PUT_client client_id body)) ->
  record_of client_id (store w) = Some c ->
  (forall o, In o (clients (store w)) -> id o <> client_id ->
             email o <> schemas.email body) ->
  let w1 := snd (serve defaults (PUT_client client_id body) r w) in
  exists c1,
    fst (serve defaults (PUT_client client_id body) r w)
    = {| status := 200; content := OneClient c1 |}
    /\ serve defaults (PUT_client client_id body) r' w1
       = ({| status := 200; content := OneClient c1 |},
          journaled [SELECT_by_id client_id; COMMIT; SELECT_by_id client_id] w1).
Proof.
  intros Hk Hr Hr' Hc Hfree w1. apply Z.leb_le in Hk.
  assert (E : email_taken_by_other client_id (schemas.email body) (store w) = false).
  { apply not_true_is_false. rewrite email_taken_by_other_true.
    intros [o [Ho [Hne He]]]. exact (Hfree o Ho Hne He). }
  assert (Hsecond : forall c1,
            record_of client_id (store w1) = Some c1 -> holds body c1 ->
            serve defaults (PUT_client client_id body) r' w1
            = ({| status := 200; content := OneClient c1 |},
               journaled [SELECT_by_id client_id; COMMIT; SELECT_by_id client_id] w1)).
  { intros c1 Hc1 Hh. apply holdsb_true in Hh.
    rewrite serve_run, get_db_session, run_update_client by (discriminate || assumption).
    now rewrite Hk, Hc1, Hh. }
  revert Hsecond. subst w1.
  rewrite serve_run, get_db_session, run_update_client by (discriminate || assumption).
  rewrite Hk, Hc, E, andb_false_r.
  destruct (holdsb body c) eqn:Hh; cbn [fst snd world store]; intros Hsecond.
  - exists c. split; [reflexivity|]. apply Hsecond; [exact Hc|now apply holdsb_true].
  - eexists. split; [reflexivity|]. apply Hsecond; [|apply holds_written].
    unfold record_of, updated. cbn [clients].
    rewrite find_map_if by (intros x Hx; exact Hx).
    unfold record_of in Hc. now rewrite Hc.
Qed.


(** ** Row counts *)

Lemma length_filter_out rows c :
  NoDup (map id rows) -> In c rows ->
  Z.of_nat (List.length (filter (fun row => negb (orm.by_id (id c) row)) rows))
  = Z.of_nat (List.length rows) - 1.
Proof.
  induction rows as [|x rows IH]; cbn [map filter List.length]; [intros _ []|].
  intros Hnd Hin. inversion Hnd as [|? ? Hn Hnd']; subst.
  destruct (orm.by_id (id c) x) eqn:E; cbn [negb List.length];
    rewrite ?Nat2Z.inj_succ.
  - apply by_id_true in E.
    assert (Hall : filter (fun row => negb (orm.by_id (id c) row)) rows = rows).
    { apply forallb_filter_id. apply forallb_forall. intros y Hy.
      destruct (orm.by_id (id c) y) eqn:Ey; [|reflexivity].
      apply by_id_true in Ey. elim Hn. rewrite E, <- Ey. now apply in_map. }
    rewrite Hall. lia.
  - destruct Hin as [->|Hin].
    + unfold orm.by_id in E. rewrite Z.eqb_refl in E. discriminate.
    + rewrite (IH Hnd' Hin). lia.
Qed.

(** X8. In a store that satisfies the invariant, an operation that
    succeeds changes the number of rows by exactly one more for create, one
    less for delete, and not at all for the others. *)
Theorem success_changes_row_count_by_delta defaults op r w :
  db_ok (store w) ->
  status (fst (serve defaults op r w)) < 400 ->
  Z.of_nat (List.length (clients (store (snd (serve defaults op r w)))))
  = Z.of_nat (List.length (clients (store w))) + delta op.
Proof.
  intros Hok.
  destruct (allowed_dec op r) as [Hr|Hr];
    [|rewrite serve_denied by assumption; cbn; lia].
  destruct op; cbn [delta].
  - rewrite serve_get_clients.
    destruct (fastapi_limiter.script _ _ _ _ _) as [pexpire cs].
    destruct (pexpire =? 0); cbn; lia.
  - rewrite serve_birthday. cbn. lia.
  - rewrite serve_run, get_db_session, run_get_client by (discriminate || assumption).
    branches; cbn; lia.
  - rewrite serve_run, get_db_session, run_create_client by (discriminate || assumption).
    cbv zeta. branches; cbn; try lia. intros _. rewrite length_app. cbn. lia.
  - rewrite serve_run, get_db_session, run_update_client by (discriminate || assumption).
    branches; cbn; try lia. intros _. rewrite length_map. lia.
  - rewrite serve_run, get_db_session, run_remove_client by (discriminate || assumption).
    destruct (1 <=? client_id); [|cbn; lia].
    destruct (record_of client_id (store w)) as [c|] eqn:Hc; [|cbn; lia].
    cbn. intros _. destruct (record_of_some _ _ _ Hc) as [Hin Hid].
    destruct Hok as (_ & _ & Hi & _).
    rewrite (length_filter_out (clients (store w)) c Hi Hin). lia.
Qed.

(** ** The band of the birthday query *)

Lemma filter_nothing {A} (p : A -> bool) l :
  (forall x, In x l -> p x = false) -> filter p l = [].
Proof.
  induction l as [|x l IH]; cbn; [reflexivity|].
  intros H. rewrite (H x) by now left. apply IH. intros y Hy. apply H. now right.
Qed.

(** X9. When the day of [end_date] is before the day of [start_date], or
    its month before the month of [start_date] (a range that runs over the
    end of a month or of a year), the birthday query returns no client,
    whatever the store holds. *)
Theorem crossing_band_is_empty defaults start_date end_date r w :
  datetime.day end_date < datetime.day start_date
  \/ datetime.month end_date < datetime.month start_date ->
  serve defaults (GET_birthday (Some start_date) (Some end_date)) r w
  = ({| status := 200; content := Clients [] |}, journaled [SELECT_where] w).
Proof.
  intros H. rewrite serve_birthday. cbn [Query].
  rewrite filter_nothing; [reflexivity|].
  intros c _. apply not_true_is_false. rewrite in_bandb_true. unfold in_band. lia.
Qed.

(** ** Timestamps *)

(** X11. If no stored client was updated before it was created nor
    after the time [t], and the clock of the request is not before [t], the
    same holds after the request, with the time of the request for [t]. *)
Theorem timestamps_stay_ordered defaults op r w t :
  timely t (store w) -> t <= now r ->
  timely (now r) (store (snd (serve defaults op r w))).
Proof.
  intros Ht Hle.
  assert (H0 : timely (now r) (store w)).
  { intros c Hc. apply Ht in Hc. lia. }
  destruct (allowed_dec op r) as [Hr|Hr]; [|now rewrite serve_denied].
  destruct op.
  - rewrite serve_get_clients.
    destruct (fastapi_limiter.script _ _ _ _ _) as [pexpire cs].
    now destruct (pexpire =? 0).
  - now rewrite serve_birthday.
  - rewrite serve_run, get_db_session, run_get_client by (discriminate || assumption).
    branches; exact H0.
  - rewrite serve_run, get_db_session, run_create_client by (discriminate || assumption).
    cbv zeta. branches; try exact H0.
    cbn [snd world store]. intros c Hc. cbn [clients] in Hc.
    apply in_app_or in Hc. destruct Hc as [Hc|[<-|[]]]; [now apply H0|cbn; lia].
  - rewrite serve_run, get_db_session, run_update_client by (discriminate || assumption).
    branches; try exact H0.
    cbn [snd world store]. intros x Hx. unfold updated in Hx. cbn [clients] in Hx.
    apply in_map_iff in Hx. destruct Hx as [row [E Hrow]].
    apply H0 in Hrow. destruct (orm.by_id client_id row); subst x; cbn; lia.
  - rewrite serve_run, get_db_session, run_remove_client by (discriminate || assumption).
    branches; try exact H0.
    cbn [snd world store]. intros x Hx. unfold orm.delete_row in Hx. cbn [clients] in Hx.
    apply filter_In in Hx. now apply H0.
Qed.

(** ** The gate, the other way round *)

(** X12. What user may do moderator may do, what moderator may do admin
    may do, admin may do everything; and a caller whose role is in the
    allowed set of an operation is never answered 403. *)
Theorem allowed_role_is_never_forbidden :
  (forall op, In user (allowed_set op) -> In moderator (allowed_set op))
  /\ (forall op, In moderator (allowed_set op) -> In admin (allowed_set op))
  /\ (forall op, In admin (allowed_set op))
  /\ (forall defaults op r w,
        In (role_of r) (allowed_set op) ->
        status (fst (serve defaults op r w)) <> 403).
Proof.
  split; [|split; [|split]].
  - intros op; destruct op; cbn; intuition congruence.
  - intros op; destruct op; cbn; intuition congruence.
  - intros op; destruct op; cbn; auto.
  - intros defaults op r w Hr. destruct op.
    + rewrite serve_get_clients.
      destruct (fastapi_limiter.script _ _ _ _ _) as [pexpire cs].
      destruct (pexpire =? 0); cbn; lia.
    + rewrite serve_birthday. cbn. lia.
    + rewrite serve_run, get_db_session, run_get_client by (discriminate || assumption).
      branches; cbn; lia.
    + rewrite serve_run, get_db_session, run_create_client by (discriminate || assumption).
      cbv zeta. branches; cbn; lia.
    + rewrite serve_run, get_db_session, run_update_client by (discriminate || assumption).
      branches; cbn; lia.
    + rewrite serve_run, get_db_session, run_remove_client by (discriminate || assumption).
      branches; cbn; lia.
Qed.


(** ** The list route and its limit *)

(** X13. A list call of a caller with fewer than 2 calls counted in the
    running window answers 200 with all the rows of the store, in their
    order; a list call is answered 429 exactly when 2 calls or more are
    counted. *)
Theorem list_answers_all_or_throttles defaults r w :
  (fastapi_limiter.current (now r) (client_host r) (limiter w) < 2 ->
   fst (serve defaults GET_clients r w)
   = {| status := 200; content := Clients (clients (store w)) |})
  /\ (status (fst (serve defaults GET_clients r w)) = 429
      <-> 2 <= fastapi_limiter.current (now r) (client_host r) (limiter w)).
Proof.
  assert (Hunder : fastapi_limiter.current (now r) (client_host r) (limiter w) < 2 ->
                   fst (serve defaults GET_clients r w)
                   = {| status := 200; content := Clients (clients (store w)) |}).
  { intros H. rewrite serve_get_clients.
    pose proof (script_under_limit (now r) (client_host r) 2 (1000 * 5) (limiter w) H) as E.
    destruct (fastapi_limiter.script _ _ _ _ _) as [pexpire cs]. cbn in E. subst pexpire.
    reflexivity. }
  split; [exact Hunder|]. split.
  - intros H.
    destruct (Z.lt_ge_cases (fastapi_limiter.current (now r) (client_host r) (limiter w)) 2)
      as [Hlt|Hge]; [|exact Hge].
    rewrite (Hunder Hlt) in H. discriminate H.
  - intros H. now rewrite list_call_over_limit.
Qed.

(** ** The migration *)

Lemma filter_out_absent n (s : alembic.Schema) :
  alembic.has_table n s = false ->
  filter (fun t => negb (alembic.named n t)) s = s.
Proof.
  unfold alembic.has_table. induction s as [|t s IH]; cbn; [reflexivity|].
  intros H. apply orb_false_iff in H. destruct H as [Ht Hs].
  rewrite Ht. cbn. now rewrite IH.
Qed.

Lemma has_table_app n (s s' : alembic.Schema) :
  alembic.has_table n (s ++ s')
  = alembic.has_table n s || alembic.has_table n s'.
Proof. unfold alembic.has_table. apply existsb_app. Qed.

(** X15. On a schema without a table "users", upgrade adds the table and
    downgrade after it gives the schema back, while downgrade alone is
    refused; on a schema with a table "users", upgrade is refused and
    downgrade removes that table and no other. *)
Theorem upgrade_downgrade_round_trip (s : alembic.Schema) :
  (alembic.has_table "users" s = false ->
   c36ed60e87ec_add_user.upgrade s = Some (s ++ [c36ed60e87ec_add_user.users])
   /\ c36ed60e87ec_add_user.downgrade (s ++ [c36ed60e87ec_add_user.users]) = Some s
   /\ c36ed60e87ec_add_user.downgrade s = None)
  /\ (alembic.has_table "users" s = true ->
      c36ed60e87ec_add_user.upgrade s = None
      /\ exists s',
           c36ed60e87ec_add_user.downgrade s = Some s'
           /\ alembic.has_table "users" s' = false
           /\ forall t, In t s' <-> In t s /\ alembic.table_name t <> "users").
Proof.
  unfold c36ed60e87ec_add_user.upgrade, c36ed60e87ec_add_user.downgrade,
    alembic.create_table, alembic.drop_table.
  cbn [alembic.table_name c36ed60e87ec_add_user.users].
  split; intros H.
  - rewrite H. split; [reflexivity|]. split; [|reflexivity].
    rewrite has_table_app, H. cbn.
    rewrite filter_app, (filter_out_absent _ _ H). cbn. now rewrite app_nil_r.
  - rewrite H. split; [reflexivity|]. eexists. split; [reflexivity|]. split.
    + unfold alembic.has_table. apply not_true_is_false. rewrite existsb_exists.
      intros [t [Ht E]]. apply filter_In in Ht. destruct Ht as [_ Ht].
      now rewrite E in Ht.
    + intros t. rewrite filter_In. unfold alembic.named.
      destruct (String.eqb_spec (alembic.table_name t) "users"); cbn;
        intuition congruence.
Qed.

(** X14. For a caller with no running window: a first list call and a
    second one less than five seconds later pass, a third one in those five
    seconds is refused and changes nothing, and a call made once the five
    seconds are over passes again with all the rows. *)
Theorem limit_window defaults r1 r2 r3 r4 w :
  client_host r2 = client_host r1 -> client_host r3 = client_host r1 ->
  client_host r4 = client_host r1 ->
  now r1 <= now r2 <= now r3 -> now r3 < now r1 + 5000 -> now r1 + 5000 <= now r4 ->
  fastapi_limiter.current (now r1) (client_host r1) (limiter w) = 0 ->
  let w1 := snd (serve defaults GET_clients r1 w) in
  let w2 := snd (serve defaults GET_clients r2 w1) in
  status (fst (serve defaults GET_clients r1 w)) = 200
  /\ status (fst (serve defaults GET_clients r2 w1)) = 200
  /\ serve defaults GET_clients r3 w2 = (Throttled, w2)
  /\ fst (serve defaults GET_clients r4 w2)
     = {| status := 200; content := Clients (clients (store w)) |}.
Proof.
  intros H2 H3 H4 Ht Hw Hlate H0 w1 w2.
  pose proof (third_list_call_refused defaults r1 r2 r3 w H2 H3 Ht Hw H0) as E.
  cbv zeta in E. destruct E as (E1 & E2 & E3).
  fold w1 in E2. fold w1 w2 in E3.
  split; [exact E1|]. split; [exact E2|]. split; [exact E3|].
  assert (S1 : w1 = world (store w)
                 (fastapi_limiter.set_px (now r1) (client_host r1) 1 5000 (limiter w))
                 (journal w ++ [SELECT_all])).
  { subst w1. rewrite serve_get_clients. unfold fastapi_limiter.script. rewrite H0.
    reflexivity. }
  assert (S2 : store w2 = store w
               /\ limiter w2
                  = fastapi_limiter.incr (now r2) (client_host r1) (limiter w1)).
  { subst w2. rewrite serve_get_clients, H2. unfold fastapi_limiter.script.
    rewrite S1. cbn [world limiter store].
    rewrite current_set_px by lia. cbn. auto. }
  destruct S2 as [Hst Hl].
  assert (Hzero : fastapi_limiter.current (now r4) (client_host r4) (limiter w2) = 0).
  { apply current_after_window. intros c Hc Hk. rewrite H4 in Hk.
    assert (Hexp : expires_at c = now r1 + 5000).
    { rewrite Hl in Hc. apply In_incr in Hc. destruct Hc as [c0 [Hc0 [Ek Ee]]].
      rewrite S1 in Hc0. cbn [world limiter] in Hc0.
      rewrite Ee. apply (In_set_px _ _ _ _ _ _ Hc0). congruence. }
    lia. }
  rewrite serve_get_clients.
  assert (E : fst (fastapi_limiter.script (now r4) (client_host r4) 2 (1000 * 5) (limiter w2)) = 0).
  { apply script_under_limit. lia. }
  destruct (fastapi_limiter.script _ _ _ _ _) as [pexpire cs]. cbn in E. subst pexpire.
  cbn. now rewrite Hst.
Qed.

Lemma filter_everything {A} (p : A -> bool) l :
  (forall x, In x l -> p x = true) -> filter p l = l.
Proof.
  intros H. apply forallb_filter_id. now apply forallb_forall.
Qed.

(** X10. When every stored birthday has a day from 1 to 31 and a month
    from 1 to 12, the birthday query from a 1st of January to a 31st of
    December, of whatever years, returns all the rows of the store. *)
Theorem full_year_band_returns_all defaults y1 y2 r w :
  (forall c, In c (clients (store w)) ->
             1 <= datetime.day (birthday c) <= 31
             /\ 1 <= datetime.month (birthday c) <= 12) ->
  fst (serve defaults
         (GET_birthday (Some (datetime.Date y1 1 1)) (Some (datetime.Date y2 12 31)))
         r w)
  = {| status := 200; content := Clients (clients (store w)) |}.
Proof.
  intros H. rewrite serve_birthday. cbn [fst Query].
  rewrite filter_everything; [reflexivity|].
  intros c Hc. apply in_bandb_true. unfold in_band. cbn. apply H in Hc. lia.
Qed.


Lemma failure_keeps_rows_witness :
  400 <= status (fst (serve defaults_2023_07_07 (PUT_client 1 alice_as_bob)
                        (request_at admin 5000) two_clients))
  /\ clients (store (snd (serve defaults_2023_07_07 (PUT_client 1 alice_as_bob)
                            (request_at admin 5000) two_clients)))
     = clients (store two_clients).
Proof.
  assert (H : 400 <= status (fst (serve defaults_2023_07_07 (PUT_client 1 alice_as_bob)
                                    (request_at admin 5000) two_clients))).
  { vm_compute. discriminate. }
  split; [exact H|].
  exact (failure_keeps_rows _ _ _ _ H).
Defined.

Lemma In_bob_two_clients : In (created 2000 2 bob) (clients (store two_clients)).
Proof. cbn. auto. Defined.

Lemma stored_client_is_found_witness :
  db_ok (store two_clients)
  /\ In (created 2000 2 bob) (clients (store two_clients))
  /\ serve defaults_2023_07_07 (GET_client 2) (request_at user 5000) two_clients
     = ({| status := 200; content := OneClient (created 2000 2 bob) |},
        journaled [SELECT_by_id 2] two_clients)
  /\ lookup_by_email "bob@example.com" (request_at user 5000) two_clients
     = Return (Some (created 2000 2 bob)).
Proof.
  split; [exact db_ok_two_clients|]. split; [exact In_bob_two_clients|].
  exact (stored_client_is_found defaults_2023_07_07 (request_at user 5000)
           two_clients (created 2000 2 bob) db_ok_two_clients In_bob_two_clients).
Defined.

Lemma carol_is_new :
  forall c, In c (clients (store two_clients)) -> email c <> schemas.email carol.
Proof. cbn. intros c [<-|[<-|[]]]; discriminate. Defined.

Lemma created_client_is_found_and_kept_unique_witness :
  db_ok (store two_clients)
  /\ (forall c, In c (clients (store two_clients)) -> email c <> schemas.email carol)
  /\ schemas.email carol = schemas.email carol
  /\ fst (serve defaults_2023_07_07 (POST_client carol) (request_at user 5000)
            two_clients)
     = {| status := 201; content := OneClient (created 5000 3 carol) |}
  /\ fst (serve defaults_2023_07_07 (GET_client 3) (request_at user 6000)
            (snd (serve defaults_2023_07_07 (POST_client carol)
                    (request_at user 5000) two_clients)))
     = {| status := 200; content := OneClient (created 5000 3 carol) |}
  /\ fst (serve defaults_2023_07_07 (POST_client carol) (request_at user 7000)
            (snd (serve defaults_2023_07_07 (POST_client carol)
                    (request_at user 5000) two_clients)))
     = Conflict.
Proof.
  split; [exact db_ok_two_clients|]. split; [exact carol_is_new|].
  split; [reflexivity|].
  pose proof (created_client_is_found_and_kept_unique defaults_2023_07_07 carol carol
                (request_at user 5000) (request_at user 6000) (request_at user 7000)
                two_clients db_ok_two_clients carol_is_new eq_refl) as H.
  cbv zeta in H. destruct H as (H1 & H2 & _ & H4 & _).
  split; [exact H1|]. split; [exact H2|exact H4].
Defined.

Lemma no_create_sample :
  no_create [(PUT_client 1 carol, request_at admin 6000);
             (GET_clients, request_at user 7000);
             (DELETE_client 2, request_at admin 8000)].
Proof. intros call [<-|[<-|[<-|[]]]]; reflexivity. Defined.

Lemma deleted_stays_deleted_witness :
  1 <= 2
  /\ In (role_of (request_at admin 5000)) (allowed_set (DELETE_client 2))
  /\ record_of 2 (store two_clients) = Some (created 2000 2 bob)
  /\ no_create [(PUT_client 1 carol, request_at admin 6000);
                (GET_clients, request_at user 7000);
                (DELETE_client 2, request_at admin 8000)]
  /\ record_of 2
       (store (serve_all defaults_2023_07_07
                 [(PUT_client 1 carol, request_at admin 6000);
                  (GET_clients, request_at user 7000);
                  (DELETE_client 2, request_at admin 8000)]
                 (snd (serve defaults_2023_07_07 (DELETE_client 2)
                         (request_at admin 5000) two_clients))))
     = None.
Proof.
  assert (H2 : 1 <= 2) by lia.
  assert (Hr : In (role_of (request_at admin 5000)) (allowed_set (DELETE_client 2)))
    by (cbn; auto).
  split; [exact H2|]. split; [exact Hr|]. split; [reflexivity|].
  split; [exact no_create_sample|].
  exact (proj1 (deleted_stays_deleted defaults_2023_07_07 2 (request_at admin 5000)
                  two_clients (created 2000 2 bob) _ (request_at user 9000)
                  H2 Hr eq_refl no_create_sample)).
Defined.

Lemma update_twice_is_update_once_witness :
  1 <= 1
  /\ In (role_of (request_at moderator 5000)) (allowed_set (PUT_client 1 carol))
  /\ record_of 1 (store two_clients) = Some (created 1000 1 alice)
  /\ exists c1,
       fst (serve defaults_2023_07_07 (PUT_client 1 carol) (request_at moderator 5000)
              two_clients)
       = {| status := 200; content := OneClient c1 |}
       /\ fst (serve defaults_2023_07_07 (PUT_client 1 carol) (request_at admin 9000)
                 (snd (serve defaults_2023_07_07 (PUT_client 1 carol)
                         (request_at moderator 5000) two_clients)))
          = {| status := 200; content := OneClient c1 |}.
Proof.
  assert (H1 : 1 <= 1) by lia.
  assert (Hr : In (role_of (request_at moderator 5000)) (allowed_set (PUT_client 1 carol)))
    by (cbn; auto).
  assert (Hr' : In (role_of (request_at admin 9000)) (allowed_set (PUT_client 1 carol)))
    by (cbn; auto).
  split; [exact H1|]. split; [exact Hr|]. split; [reflexivity|].
  pose proof (update_twice_is_update_once defaults_2023_07_07 1 carol
                (request_at moderator 5000) (request_at admin 9000) two_clients
                (created 1000 1 alice) H1 Hr Hr' eq_refl) as H.
  cbv zeta in H. destruct H as (c1 & E1 & E2).
  { cbn. intros o [<-|[<-|[]]]; cbn; intros; [lia|discriminate]. }
  exists c1. split; [exact E1|]. now rewrite E2.
Defined.

Lemma success_changes_row_count_by_delta_witness :
  db_ok (store two_clients)
  /\ status (fst (serve defaults_2023_07_07 (DELETE_client 2) (request_at admin 5000)
                    two_clients)) < 400
  /\ Z.of_nat (List.length
                 (clients (store (snd (serve defaults_2023_07_07 (DELETE_client 2)
                                         (request_at admin 5000) two_clients)))))
     = 2 + -1.
Proof.
  assert (H : status (fst (serve defaults_2023_07_07 (DELETE_client 2)
                             (request_at admin 5000) two_clients)) < 400)
    by reflexivity.
  split; [exact db_ok_two_clients|]. split; [exact H|].
  exact (success_changes_row_count_by_delta defaults_2023_07_07 (DELETE_client 2)
           (request_at admin 5000) two_clients db_ok_two_clients H).
Defined.

Lemma crossing_band_is_empty_witness :
  (datetime.day (datetime.Date 2023 8 3) < datetime.day (datetime.Date 2023 7 28)
   \/ datetime.month (datetime.Date 2023 8 3) < datetime.month (datetime.Date 2023 7 28))
  /\ serve defaults_2023_07_07
       (GET_birthday (Some (datetime.Date 2023 7 28)) (Some (datetime.Date 2023 8 3)))
       (request_at user 5000) two_clients
     = ({| status := 200; content := Clients [] |},
        journaled [SELECT_where] two_clients).
Proof.
  assert (H : datetime.day (datetime.Date 2023 8 3) < datetime.day (datetime.Date 2023 7 28)
              \/ datetime.month (datetime.Date 2023 8 3)
                 < datetime.month (datetime.Date 2023 7 28))
    by (left; reflexivity).
  split; [exact H|].
  exact (crossing_band_is_empty defaults_2023_07_07 _ _ (request_at user 5000)
           two_clients H).
Defined.

Lemma timely_two_clients : timely 2000 (store two_clients).
Proof. intros c. cbn. intros [<-|[<-|[]]]; cbn; lia. Defined.

Lemma timestamps_stay_ordered_witness :
  timely 2000 (store two_clients)
  /\ 2000 <= now (request_at admin 5000)
  /\ timely (now (request_at admin 5000))
       (store (snd (serve defaults_2023_07_07 (PUT_client 1 carol)
                      (request_at admin 5000) two_clients))).
Proof.
  assert (H : 2000 <= now (request_at admin 5000)) by (cbn; lia).
  split; [exact timely_two_clients|]. split; [exact H|].
  exact (timestamps_stay_ordered defaults_2023_07_07 (PUT_client 1 carol)
           (request_at admin 5000) two_clients 2000 timely_two_clients H).
Defined.

Lemma allowed_role_is_never_forbidden_witness :
  In (role_of (request_at admin 5000)) (allowed_set (DELETE_client 2))
  /\ status (fst (serve defaults_2023_07_07 (DELETE_client 2) (request_at admin 5000)
                    two_clients)) <> 403.
Proof.
  assert (H : In (role_of (request_at admin 5000)) (allowed_set (DELETE_client 2)))
    by (cbn; auto).
  split; [exact H|].
  exact (proj2 (proj2 (proj2 allowed_role_is_never_forbidden)) defaults_2023_07_07
           (DELETE_client 2) (request_at admin 5000) two_clients H).
Defined.

Lemma list_answers_all_or_throttles_witness :
  fastapi_limiter.current (now (request_at user 5000))
    (client_host (request_at user 5000)) (limiter two_clients) < 2
  /\ fst (serve defaults_2023_07_07 GET_clients (request_at user 5000) two_clients)
     = {| status := 200; content := Clients (clients (store two_clients)) |}
  /\ 2 <= fastapi_limiter.current (now (request_at user 5000))
            (client_host (request_at user 5000)) (limiter two_clients_busy)
  /\ status (fst (serve defaults_2023_07_07 GET_clients (request_at user 5000)
                    two_clients_busy)) = 429.
Proof.
  assert (H : fastapi_limiter.current (now (request_at user 5000))
                (client_host (request_at user 5000)) (limiter two_clients) < 2)
    by reflexivity.
  assert (H' : 2 <= fastapi_limiter.current (now (request_at user 5000))
                      (client_host (request_at user 5000)) (limiter two_clients_busy))
    by (cbn; lia).
  split; [exact H|]. split.
  - exact (proj1 (list_answers_all_or_throttles defaults_2023_07_07
                    (request_at user 5000) two_clients) H).
  - split; [exact H'|].
    exact (proj2 (proj2 (list_answers_all_or_throttles defaults_2023_07_07
                           (request_at user 5000) two_clients_busy)) H').
Defined.

Lemma limit_window_witness :
  now (request_at user 1000) <= now (request_at user 2000) <= now (request_at user 3000)
  /\ now (request_at user 3000) < now (request_at user 1000) + 5000
  /\ now (request_at user 1000) + 5000 <= now (request_at user 6000)
  /\ fastapi_limiter.current (now (request_at user 1000))
       (client_host (request_at user 1000)) (limiter two_clients) = 0
  /\ fst (serve defaults_2023_07_07 GET_clients (request_at user 3000)
            (snd (serve defaults_2023_07_07 GET_clients (request_at user 2000)
                    (snd (serve defaults_2023_07_07 GET_clients (request_at user 1000)
                            two_clients)))))
     = Throttled
  /\ fst (serve defaults_2023_07_07 GET_clients (request_at user 6000)
            (snd (serve defaults_2023_07_07 GET_clients (request_at user 2000)
                    (snd (serve defaults_2023_07_07 GET_clients (request_at user 1000)
                            two_clients)))))
     = {| status := 200; content := Clients (clients (store two_clients)) |}.
Proof.
  assert (Ht : now (request_at user 1000) <= now (request_at user 2000)
               <= now (request_at user 3000)) by (cbn; lia).
  assert (Hw : now (request_at user 3000) < now (request_at user 1000) + 5000)
    by (cbn; lia).
  assert (Hl : now (request_at user 1000) + 5000 <= now (request_at user 6000))
    by (cbn; lia).
  assert (H0 : fastapi_limiter.current (now (request_at user 1000))
                 (client_host (request_at user 1000)) (limiter two_clients) = 0)
    by reflexivity.
  pose proof (limit_window defaults_2023_07_07 (request_at user 1000)
                (request_at user 2000) (request_at user 3000) (request_at user 6000)
                two_clients eq_refl eq_refl eq_refl Ht Hw Hl H0) as H.
  cbv zeta in H. destruct H as (_ & _ & E3 & E4).
  split; [exact Ht|]. split; [exact Hw|]. split; [exact Hl|]. split; [exact H0|].
  split; [now rewrite E3|exact E4].
Defined.

Lemma upgrade_downgrade_round_trip_witness :
  alembic.has_table "users" clients_only = false
  /\ c36ed60e87ec_add_user.upgrade clients_only
     = Some (clients_only ++ [c36ed60e87ec_add_user.users])
  /\ c36ed60e87ec_add_user.downgrade (clients_only ++ [c36ed60e87ec_add_user.users])
     = Some clients_only
  /\ alembic.has_table "users" (clients_only ++ [c36ed60e87ec_add_user.users]) = true
  /\ c36ed60e87ec_add_user.upgrade (clients_only ++ [c36ed60e87ec_add_user.users])
     = None.
Proof.
  assert (H : alembic.has_table "users" clients_only = false) by reflexivity.
  assert (H' : alembic.has_table "users"
                 (clients_only ++ [c36ed60e87ec_add_user.users]) = true)
    by reflexivity.
  destruct (proj1 (upgrade_downgrade_round_trip clients_only) H) as (E1 & E2 & _).
  destruct (proj2 (upgrade_downgrade_round_trip
                     (clients_only ++ [c36ed60e87ec_add_user.users])) H')
    as (E3 & _).
  repeat split; assumption.
Defined.

Lemma full_year_band_returns_all_witness :
  (forall c, In c (clients (store two_clients)) ->
             1 <= datetime.day (birthday c) <= 31
             /\ 1 <= datetime.month (birthday c) <= 12)
  /\ fst (serve defaults_2023_07_07
            (GET_birthday (Some (datetime.Date 2023 1 1)) (Some (datetime.Date 2023 12 31)))
            (request_at user 5000) two_clients)
     = {| status := 200; content := Clients (clients (store two_clients)) |}.
Proof.
  assert (H : forall c, In c (clients (store two_clients)) ->
                        1 <= datetime.day (birthday c) <= 31
                        /\ 1 <= datetime.month (birthday c) <= 12).
  { cbn. intros c [<-|[<-|[]]]; cbn; lia. }
  split; [exact H|].
  exact (full_year_band_returns_all defaults_2023_07_07 2023 2023
           (request_at user 5000) two_clients H).
Defined.
